(** * pgx/base: connection establishment and authentication

    A shallow embedding of [base/conn.go]: address resolution, the optional
    TLS upgrade, the startup message, the handshake loop, authentication and
    the receive primitive that tracks session state.

    Go strings are byte sequences; they are modelled as [string], whose
    characters ([ascii]) are exactly the 8-bit bytes.  Maps are [gmap]s.
    Collaborators that live outside this package (the operating system, the
    transport, [crypto/tls], the [pgproto3] codec) are modelled as scripted
    mocks, so that every behaviour they can show on one run is an input. *)

From Stdlib Require Import ZArith String Ascii List Lia DecimalString.
From stdpp Require Import gmap strings list fin_maps.
Import ListNotations.

Local Open Scope string_scope.
Local Open Scope Z_scope.

(** ** Bytes and strings *)

Definition byte_of_ascii (c : ascii) : Z := Z.of_N (N_of_ascii c).

Definition bytes_of_string (s : string) : list Z :=
  List.map byte_of_ascii (list_ascii_of_string s).

(** ** crypto/md5 and encoding/hex

    Both are Go's standard library.  MD5 follows RFC 1321 on 32-bit words kept
    in [Z] with the wrap-around written out. *)

Module MD5.

Definition wrap32 (x : Z) : Z := x mod 2 ^ 32.

Definition add32 (x y : Z) : Z := wrap32 (x + y).

Definition rotl32 (x : Z) (n : Z) : Z :=
  Z.lor (wrap32 (Z.shiftl x n)) (Z.shiftr (wrap32 x) (32 - n)).

Definition not32 (x : Z) : Z := Z.lxor x 0xffffffff.

Definition K : list Z :=
  [ 0xd76aa478; 0xe8c7b756; 0x242070db; 0xc1bdceee;
    0xf57c0faf; 0x4787c62a; 0xa8304613; 0xfd469501;
    0x698098d8; 0x8b44f7af; 0xffff5bb1; 0x895cd7be;
    0x6b901122; 0xfd987193; 0xa679438e; 0x49b40821;
    0xf61e2562; 0xc040b340; 0x265e5a51; 0xe9b6c7aa;
    0xd62f105d; 0x02441453; 0xd8a1e681; 0xe7d3fbc8;
    0x21e1cde6; 0xc33707d6; 0xf4d50d87; 0x455a14ed;
    0xa9e3e905; 0xfcefa3f8; 0x676f02d9; 0x8d2a4c8a;
    0xfffa3942; 0x8771f681; 0x6d9d6122; 0xfde5380c;
    0xa4beea44; 0x4bdecfa9; 0xf6bb4b60; 0xbebfbc70;
    0x289b7ec6; 0xeaa127fa; 0xd4ef3085; 0x04881d05;
    0xd9d4d039; 0xe6db99e5; 0x1fa27cf8; 0xc4ac5665;
    0xf4292244; 0x432aff97; 0xab9423a7; 0xfc93a039;
    0x655b59c3; 0x8f0ccc92; 0xffeff47d; 0x85845dd1;
    0x6fa87e4f; 0xfe2ce6e0; 0xa3014314; 0x4e0811a1;
    0xf7537e82; 0xbd3af235; 0x2ad7d2bb; 0xeb86d391 ].

Definition S : list Z :=
  [ 7; 12; 17; 22; 7; 12; 17; 22; 7; 12; 17; 22; 7; 12; 17; 22;
    5; 9; 14; 20; 5; 9; 14; 20; 5; 9; 14; 20; 5; 9; 14; 20;
    4; 11; 16; 23; 4; 11; 16; 23; 4; 11; 16; 23; 4; 11; 16; 23;
    6; 10; 15; 21; 6; 10; 15; 21; 6; 10; 15; 21; 6; 10; 15; 21 ].

(** The chaining value A, B, C, D. *)
Record digest := Digest { dA : Z; dB : Z; dC : Z; dD : Z }.

Definition init : digest :=
  Digest 0x67452301 0xefcdab89 0x98badcfe 0x10325476.

(** The round function and the index of the message word it uses. *)
Definition mix (i : Z) (b c d : Z) : Z * Z :=
  if i <? 16 then (Z.lor (Z.land b c) (Z.land (not32 b) d), i)
  else if i <? 32 then (Z.lor (Z.land d b) (Z.land (not32 d) c), (5 * i + 1) mod 16)
  else if i <? 48 then (Z.lxor (Z.lxor b c) d, (3 * i + 5) mod 16)
  else (Z.lxor c (Z.lor b (not32 d)), (7 * i) mod 16).

Definition step (m : list Z) (st : digest) (i : nat) : digest :=
  let '(f, g) := mix (Z.of_nat i) (dB st) (dC st) (dD st) in
  let f' := add32 (add32 (add32 f (dA st)) (List.nth i K 0)) (List.nth (Z.to_nat g) m 0) in
  Digest (dD st) (add32 (dB st) (rotl32 f' (List.nth i S 0))) (dB st) (dC st).

(** Little-endian word of four bytes. *)
Definition word_of_bytes (bs : list Z) : Z :=
  List.nth 0 bs 0 + List.nth 1 bs 0 * 2 ^ 8 + List.nth 2 bs 0 * 2 ^ 16 + List.nth 3 bs 0 * 2 ^ 24.

Definition bytes_of_word (w : Z) : list Z :=
  [ w mod 256; (w / 2 ^ 8) mod 256; (w / 2 ^ 16) mod 256; (w / 2 ^ 24) mod 256 ].

Fixpoint chunks (n : nat) (size : nat) (bs : list Z) : list (list Z) :=
  match n with
  | O => []
  | Datatypes.S n' => List.firstn size bs :: chunks n' size (List.skipn size bs)
  end.

Definition block (st : digest) (blk : list Z) : digest :=
  let m := List.map word_of_bytes (chunks 16 4 blk) in
  let r := List.fold_left (step m) (List.seq 0 64) st in
  Digest (add32 (dA st) (dA r)) (add32 (dB st) (dB r))
           (add32 (dC st) (dC r)) (add32 (dD st) (dD r)).

(** One 0x80 byte, zeros up to 56 modulo 64, then the bit length as a
  little-endian 64-bit integer. *)
Definition pad (msg : list Z) : list Z :=
  let len := Z.of_nat (List.length msg) in
  let zeros := Z.to_nat ((55 - len) mod 64) in
  let bits := (8 * len) mod 2 ^ 64 in
  msg ++ [0x80] ++ List.repeat 0 zeros
        ++ bytes_of_word (bits mod 2 ^ 32) ++ bytes_of_word (bits / 2 ^ 32).

Definition sum (msg : list Z) : list Z :=
  let p := pad msg in
  let r := List.fold_left block (chunks (List.length p / 64) 64 p) init in
  bytes_of_word (dA r) ++ bytes_of_word (dB r) ++ bytes_of_word (dC r) ++ bytes_of_word (dD r).

End MD5.

Module Hex.

Definition hextable : string := "0123456789abcdef".

Definition digit (n : Z) : ascii :=
  match String.get (Z.to_nat (n mod 16)) hextable with
  | Some c => c
  | None => "0"%char
  end.

(** hex.EncodeToString *)
Fixpoint EncodeToString (bs : list Z) : string :=
  match bs with
  | [] => ""
  | b :: rest => String (digit (b / 16)) (String (digit b) (EncodeToString rest))
  end.

End Hex.

(** [hexMD5]: hash the bytes of [s], print the digest in lowercase hex. *)
Definition hexMD5 (s : string) : string :=
  Hex.EncodeToString (MD5.sum (bytes_of_string s)).

(** ** strings, strconv, fmt and path/filepath

    Go's standard library again.  [filepath.Clean] is modelled on the path
    elements, following its documented rules for the Unix separator: empty and
    [.] elements are dropped, an inner [..] removes the element before it, a
    [..] at the root is dropped, and a leading [..] of a relative path stays. *)

Module strings.

(** strings.Contains *)
Fixpoint Contains (s substr : string) : bool :=
  if String.prefix substr s then true
  else match s with
       | EmptyString => false
       | String _ rest => Contains rest substr
       end.

(** strings.Join *)
Definition Join (elems : list string) (sep : string) : string :=
  String.concat sep elems.

(** strings.Split for the one-byte separator [/] *)
Fixpoint SplitSlash (s : string) : list string :=
  match s with
  | EmptyString => [EmptyString]
  | String c rest =>
      if Ascii.eqb c "/" then EmptyString :: SplitSlash rest
      else match SplitSlash rest with
           | [] => [String c EmptyString]
           | e :: es => String c e :: es
           end
  end.

End strings.

Module strconv.

(** strconv.FormatInt(i, 10) *)
Definition FormatInt (i : Z) : string :=
  DecimalString.NilZero.string_of_int (Z.to_int i).

End strconv.

Module filepath.

(** One path element pushed on the elements kept so far (innermost first). *)
Definition push (rooted : bool) (kept : list string) (elem : string) : list string :=
  if String.eqb elem "" then kept
  else if String.eqb elem "." then kept
  else if String.eqb elem ".." then
    match kept with
    | [] => if rooted then [] else [".."]
    | top :: below => if String.eqb top ".." then ".." :: kept else below
    end
  else elem :: kept.

Definition Clean (path : string) : string :=
  if String.eqb path "" then "."
  else
    let rooted := String.prefix "/" path in
    let kept := List.rev (List.fold_left (push rooted) (strings.SplitSlash path) []) in
    let body := strings.Join kept "/" in
    if rooted then "/" ++ body
    else if String.eqb body "" then "." else body.

Fixpoint Join (elem : list string) : string :=
  match elem with
  | [] => ""
  | e :: rest =>
      if String.eqb e "" then Join rest else Clean (strings.Join elem "/")
  end.

End filepath.

(** ** Errors

    A Go [error] is an interface value.  The ones this package creates are
    [errors.New] values and [PgError]s; every other error comes from a
    collaborator and is kept by its text. *)

Record PgError := {
  Severity : string;
  Code : string;
  Message : string;
  Detail : string;
  Hint : string;
  Position : Z;
  InternalPosition : Z;
  InternalQuery : string;
  Where : string;
  SchemaName : string;
  TableName : string;
  ColumnName : string;
  DataTypeName : string;
  ConstraintName : string;
  File : string;
  Line : Z;
  Routine : string
}.

Definition PgError_Error (pe : PgError) : string :=
  Severity pe ++ ": " ++ Message pe ++ " (SQLSTATE " ++ Code pe ++ ")".

Inductive error :=
| errors_New (text : string)
| PgError_error (pe : PgError)
| foreign_error (text : string).

(** What a Go call with an [(T, error)] result gives back. *)
Inductive result (A : Type) :=
| Ok (a : A)
| Err (e : error).
Arguments Ok {A} a.
Arguments Err {A} e.

Definition ErrTLSRefused : error := errors_New "server refused TLS connection".

(** [io.EOF], as the mocks below report it when their script is exhausted. *)
Definition io_EOF : error := foreign_error "EOF".

(** ** pgproto3: the frames this package reads and writes

    Modelled from the spec: the frame codec [pgproto3] is a collaborator whose
    source is not part of this package.  Its frames are records with the
    fields [conn.go] reads; the numeric constants are those of the PostgreSQL
    protocol, version 3.0.  [Encode] is kept symbolic: what travels on the
    wire is named by the frame it encodes. *)

Module pgproto3.

Definition ProtocolVersionNumber : Z := 196608.

Definition AuthTypeOk : Z := 0.
Definition AuthTypeCleartextPassword : Z := 3.
Definition AuthTypeMD5Password : Z := 5.

Record Authentication := {
  Type' : Z;
  Salt : ascii * ascii * ascii * ascii
}.

Record BackendKeyData := {
  ProcessID : Z;
  SecretKey : Z
}.

Record ReadyForQuery := {
  TxStatus : ascii
}.

Record ParameterStatus := {
  Name : string;
  Value : string
}.

Record ErrorResponse := {
  Severity : string;
  Code : string;
  Message : string;
  Detail : string;
  Hint : string;
  Position : Z;
  InternalPosition : Z;
  InternalQuery : string;
  Where : string;
  SchemaName : string;
  TableName : string;
  ColumnName : string;
  DataTypeName : string;
  ConstraintName : string;
  File : string;
  Line : Z;
  Routine : string
}.

(** The interface [BackendMessage] as the sum of the frames the handshake
    tells apart; [OtherMessage] stands for every other kind, named by its
    type byte. *)
Inductive BackendMessage :=
| MsgAuthentication (m : Authentication)
| MsgBackendKeyData (m : BackendKeyData)
| MsgReadyForQuery (m : ReadyForQuery)
| MsgParameterStatus (m : ParameterStatus)
| MsgErrorResponse (m : ErrorResponse)
| OtherMessage (kind : ascii).

Record StartupMessage := {
  ProtocolVersion : Z;
  Parameters : gmap string string
}.

Record PasswordMessage := {
  Password : string
}.

Inductive FrontendMessage :=
| MsgStartup (m : StartupMessage)
| MsgPassword (m : PasswordMessage).

(** A mocked frame codec: [Receive] hands out the scripted results in order,
    and reports the end of the stream once they are used up. *)
Record Frontend := {
  script : list (result BackendMessage)
}.

Definition Receive (f : Frontend) : result BackendMessage * Frontend :=
  match script f with
  | [] => (Err io_EOF, f)
  | r :: rest => (r, {| script := rest |})
  end.

End pgproto3.

(** ** crypto/tls and net: the byte stream

    [tls.Config] is kept by two of its fields; only its identity matters
    here. *)

Module tls.

Record Config := {
  ServerName : string;
  InsecureSkipVerify : bool
}.

End tls.

Module net.

(** What is handed to one [Write] call. *)
Inductive payload :=
| Bytes (bs : list Z)
| Encoded (m : pgproto3.FrontendMessage).

(** A mocked [net.Conn].  [written] logs every [Write] call with the outcome
    the transport reported, oldest first; [writeScript] and [readScript] fix
    the outcomes of the coming calls (an exhausted [writeScript] accepts every
    write, an exhausted [readScript] is the end of the stream); [tlsClient]
    is the policy of the [tls.Client] wrapped around the stream, if any. *)
Record Conn := {
  tlsClient : option tls.Config;
  written : list (payload * option error);
  writeScript : list (option error);
  readScript : list (result ascii)
}.

Definition Write (c : Conn) (p : payload) : option error * Conn :=
  match writeScript c with
  | [] =>
      (None, {| tlsClient := tlsClient c; written := written c ++ [(p, None)];
                writeScript := []; readScript := readScript c |})
  | o :: rest =>
      (o, {| tlsClient := tlsClient c; written := written c ++ [(p, o)];
             writeScript := rest; readScript := readScript c |})
  end.

(** [io.ReadFull] into a buffer of one byte. *)
Definition ReadFull1 (c : Conn) : result ascii * Conn :=
  match readScript c with
  | [] => (Err io_EOF, c)
  | r :: rest =>
      (r, {| tlsClient := tlsClient c; written := written c;
             writeScript := writeScript c; readScript := rest |})
  end.

(** [tls.Client(conn, config)]: the wrapper; no handshake happens here. *)
Definition tls_Client (c : Conn) (config : tls.Config) : Conn :=
  {| tlsClient := Some config; written := written c;
     writeScript := writeScript c; readScript := readScript c |}.

End net.

Module binary.

(** Four bytes, most significant first, of a 32-bit integer. *)
Definition BigEndian_int32 (x : Z) : list Z :=
  let u := x mod 2 ^ 32 in
  [ Z.shiftr u 24; Z.land (Z.shiftr u 16) 255; Z.land (Z.shiftr u 8) 255; Z.land u 255 ].

(** binary.Write(w, binary.BigEndian, data) for [data : []int32]. *)
Definition Write (w : net.Conn) (data : list Z) : option error * net.Conn :=
  net.Write w (net.Bytes (List.concat (List.map BigEndian_int32 data))).

End binary.

(** ** The operating system and the collaborators' entry points *)

(** DialFunc *)
Definition DialFunc : Type := string -> string -> result net.Conn.

Record Env := {
  (** os.Stat(name) returned no error *)
  os_Stat : string -> bool;
  (** user.Current(): the Username of the user it found *)
  user_Current : result string;
  (** (&net.Dialer{KeepAlive: keepAlive}).Dial, [keepAlive] in nanoseconds *)
  net_Dialer_Dial : Z -> DialFunc;
  (** pgproto3.NewFrontend(r, w), called with the same stream twice *)
  pgproto3_NewFrontend : net.Conn -> result pgproto3.Frontend
}.

Definition time_Minute : Z := 60 * 1000000000.

(** ** ConnConfig *)

Record ConnConfig := {
  Host : string;
  Port : Z;
  Database : string;
  User : string;
  Password : string;
  TLSConfig : option tls.Config;
  Dial : option DialFunc;
  RuntimeParams : gmap string string
}.

Definition NetworkAddress (env : Env) (cc : ConnConfig) : string * string :=
  if os_Stat env (Host cc) then
    let network := "unix" in
    let address := Host cc in
    let address :=
      if negb (strings.Contains address "/.s.PGSQL.") then
        filepath.Join [address; ".s.PGSQL."] ++ strconv.FormatInt (Port cc)
      else address in
    (network, address)
  else
    let network := "tcp" in
    let address := Host cc ++ ":" ++ strconv.FormatInt (Port cc) in
    (network, address).

(** [assignDefaults] works on the configuration in place; the configuration
    it leaves behind is returned next to its error. *)
Definition assignDefaults (env : Env) (cc : ConnConfig) : option error * ConnConfig :=
  let filled (user : string) :=
    let port := if Port cc =? 0 then 5432 else Port cc in
    let dial :=
      match Dial cc with
      | None => Some (net_Dialer_Dial env (5 * time_Minute))
      | Some d => Some d
      end in
    {| Host := Host cc; Port := port; Database := Database cc; User := user;
       Password := Password cc; TLSConfig := TLSConfig cc; Dial := dial;
       RuntimeParams := RuntimeParams cc |} in
  if String.eqb (User cc) "" then
    match user_Current env with
    | Err err => (Some err, cc)
    | Ok username => (None, filled username)
    end
  else (None, filled (User cc)).

(** ** PgConn

    The fields that are pointers, interfaces or maps in Go are options here:
    [None] is [nil], as in the handle [new(PgConn)] makes. *)

Record PgConn := {
  NetConn : option net.Conn;
  PID : Z;
  SecretKey : Z;
  parameterStatuses : option (gmap string string);
  TxStatus : ascii;
  Frontend : option pgproto3.Frontend;
  Config : ConnConfig
}.

Definition zero_ConnConfig : ConnConfig :=
  {| Host := ""; Port := 0; Database := ""; User := ""; Password := "";
     TLSConfig := None; Dial := None; RuntimeParams := ∅ |}.

Definition new_PgConn : PgConn :=
  {| NetConn := None; PID := 0; SecretKey := 0; parameterStatuses := None;
     TxStatus := Ascii.zero; Frontend := None; Config := zero_ConnConfig |}.

Definition set_NetConn (c : PgConn) (v : option net.Conn) : PgConn :=
  {| NetConn := v; PID := PID c; SecretKey := SecretKey c;
     parameterStatuses := parameterStatuses c; TxStatus := TxStatus c;
     Frontend := Frontend c; Config := Config c |}.

Definition set_PID (c : PgConn) (v : Z) : PgConn :=
  {| NetConn := NetConn c; PID := v; SecretKey := SecretKey c;
     parameterStatuses := parameterStatuses c; TxStatus := TxStatus c;
     Frontend := Frontend c; Config := Config c |}.

Definition set_SecretKey (c : PgConn) (v : Z) : PgConn :=
  {| NetConn := NetConn c; PID := PID c; SecretKey := v;
     parameterStatuses := parameterStatuses c; TxStatus := TxStatus c;
     Frontend := Frontend c; Config := Config c |}.

Definition set_parameterStatuses (c : PgConn) (v : option (gmap string string)) : PgConn :=
  {| NetConn := NetConn c; PID := PID c; SecretKey := SecretKey c;
     parameterStatuses := v; TxStatus := TxStatus c;
     Frontend := Frontend c; Config := Config c |}.

Definition set_TxStatus (c : PgConn) (v : ascii) : PgConn :=
  {| NetConn := NetConn c; PID := PID c; SecretKey := SecretKey c;
     parameterStatuses := parameterStatuses c; TxStatus := v;
     Frontend := Frontend c; Config := Config c |}.

Definition set_Frontend (c : PgConn) (v : option pgproto3.Frontend) : PgConn :=
  {| NetConn := NetConn c; PID := PID c; SecretKey := SecretKey c;
     parameterStatuses := parameterStatuses c; TxStatus := TxStatus c;
     Frontend := v; Config := Config c |}.

Definition set_Config (c : PgConn) (v : ConnConfig) : PgConn :=
  {| NetConn := NetConn c; PID := PID c; SecretKey := SecretKey c;
     parameterStatuses := parameterStatuses c; TxStatus := TxStatus c;
     Frontend := Frontend c; Config := v |}.

(** ** Running a method

    A call either returns, panics (a nil pointer or interface is used, a nil
    map is written) or, for the handshake loop, uses up the iterations it
    was given. *)

Inductive run (A : Type) :=
| Done (a : A)
| Panic
| OutOfFuel.
Arguments Done {A} a.
Arguments Panic {A}.
Arguments OutOfFuel {A}.

#[global] Instance run_ret : MRet run := fun A a => Done a.

#[global] Instance run_bind : MBind run := fun A B k m =>
  match m with
  | Done a => k a
  | Panic => Panic
  | OutOfFuel => OutOfFuel
  end.

(** ** The methods of PgConn *)

Definition startTLS (pgConn : PgConn) (tlsConfig : tls.Config) : run (option error * PgConn) :=
  match NetConn pgConn with
  | None => Panic
  | Some conn =>
      let '(err, conn) := binary.Write conn [8; 80877103] in
      let pgConn := set_NetConn pgConn (Some conn) in
      match err with
      | Some e => Done (Some e, pgConn)
      | None =>
          let '(response, conn) := net.ReadFull1 conn in
          let pgConn := set_NetConn pgConn (Some conn) in
          match response with
          | Err e => Done (Some e, pgConn)
          | Ok response0 =>
              if negb (Ascii.eqb response0 "S") then Done (Some ErrTLSRefused, pgConn)
              else Done (None, set_NetConn pgConn (Some (net.tls_Client conn tlsConfig)))
          end
      end
  end.

Definition txPasswordMessage (pgConn : PgConn) (password : string) : run (option error * PgConn) :=
  let msg := {| pgproto3.Password := password |} in
  match NetConn pgConn with
  | None => Panic
  | Some conn =>
      let '(err, conn) := net.Write conn (net.Encoded (pgproto3.MsgPassword msg)) in
      Done (err, set_NetConn pgConn (Some conn))
  end.

(** string(msg.Salt[:]) *)
Definition string_of_Salt (salt : ascii * ascii * ascii * ascii) : string :=
  let '(s0, s1, s2, s3) := salt in
  String s0 (String s1 (String s2 (String s3 EmptyString))).

Definition rxAuthenticationX (c : PgConn) (msg : pgproto3.Authentication) : run (option error * PgConn) :=
  if pgproto3.Type' msg =? pgproto3.AuthTypeOk then Done (None, c)
  else if pgproto3.Type' msg =? pgproto3.AuthTypeCleartextPassword then
    txPasswordMessage c (Password (Config c))
  else if pgproto3.Type' msg =? pgproto3.AuthTypeMD5Password then
    let digestedPassword :=
      "md5" ++ hexMD5 (hexMD5 (Password (Config c) ++ User (Config c))
                       ++ string_of_Salt (pgproto3.Salt msg)) in
    txPasswordMessage c digestedPassword
  else Done (Some (errors_New "Received unknown authentication message"), c).

Definition ReceiveMessage (pgConn : PgConn) : run (result pgproto3.BackendMessage * PgConn) :=
  match Frontend pgConn with
  | None => Panic
  | Some frontend =>
      let '(r, frontend) := pgproto3.Receive frontend in
      let pgConn := set_Frontend pgConn (Some frontend) in
      match r with
      | Err err => Done (Err err, pgConn)
      | Ok msg =>
          match msg with
          | pgproto3.MsgReadyForQuery m =>
              Done (Ok msg, set_TxStatus pgConn (pgproto3.TxStatus m))
          | pgproto3.MsgParameterStatus m =>
              match parameterStatuses pgConn with
              | None => Panic
              | Some statuses =>
                  Done (Ok msg,
                        set_parameterStatuses pgConn
                          (Some (<[pgproto3.Name m := pgproto3.Value m]> statuses)))
              end
          | _ => Done (Ok msg, pgConn)
          end
      end
  end.

(** Reading a nil map gives the zero value, as reading a missing key does. *)
Definition ParameterStatus (pgConn : PgConn) (key : string) : string :=
  match parameterStatuses pgConn with
  | None => ""
  | Some statuses => default "" (statuses !! key)
  end.

(** ** Connect *)

(** The startup frame [Connect] builds before it writes it. *)
Definition Connect_startupMsg (cc : ConnConfig) : pgproto3.StartupMessage :=
  let parameters : gmap string string := ∅ in
  (* Copy default run-time params *)
  let parameters :=
    map_fold (fun k v (acc : gmap string string) => <[k := v]> acc)
             parameters (RuntimeParams cc) in
  let parameters := <["user" := User cc]> parameters in
  let parameters :=
    if negb (String.eqb (Database cc) "") then <["database" := Database cc]> parameters
    else parameters in
  {| pgproto3.ProtocolVersion := pgproto3.ProtocolVersionNumber;
     pgproto3.Parameters := parameters |}.

(** What [Connect] hands back: the handle, the error, and next to them the
    byte stream as the call left it ([None] when none was opened), which is
    where the frames it wrote can be observed. *)
Definition returned : Type := option PgConn * option error * option net.Conn.

Definition PgError_of (msg : pgproto3.ErrorResponse) : PgError :=
  {| Severity := pgproto3.Severity msg;
     Code := pgproto3.Code msg;
     Message := pgproto3.Message msg;
     Detail := pgproto3.Detail msg;
     Hint := pgproto3.Hint msg;
     Position := pgproto3.Position msg;
     InternalPosition := pgproto3.InternalPosition msg;
     InternalQuery := pgproto3.InternalQuery msg;
     Where := pgproto3.Where msg;
     SchemaName := pgproto3.SchemaName msg;
     TableName := pgproto3.TableName msg;
     ColumnName := pgproto3.ColumnName msg;
     DataTypeName := pgproto3.DataTypeName msg;
     ConstraintName := pgproto3.ConstraintName msg;
     File := pgproto3.File msg;
     Line := pgproto3.Line msg;
     Routine := pgproto3.Routine msg |}.

(** The [for] loop of [Connect]; [fuel] bounds its iterations. *)
Fixpoint Connect_loop (fuel : nat) (pgConn : PgConn) : run returned :=
  match fuel with
  | O => OutOfFuel
  | Datatypes.S fuel =>
      '(r, pgConn) ← ReceiveMessage pgConn;
      match r with
      | Err err => Done (None, Some err, NetConn pgConn)
      | Ok msg =>
          match msg with
          | pgproto3.MsgBackendKeyData msg =>
              let pgConn := set_PID pgConn (pgproto3.ProcessID msg) in
              let pgConn := set_SecretKey pgConn (pgproto3.SecretKey msg) in
              Connect_loop fuel pgConn
          | pgproto3.MsgAuthentication msg =>
              '(err, pgConn) ← rxAuthenticationX pgConn msg;
              match err with
              | Some err => Done (None, Some err, NetConn pgConn)
              | None => Connect_loop fuel pgConn
              end
          | pgproto3.MsgReadyForQuery _ =>
              Done (Some pgConn, None, NetConn pgConn)
          | pgproto3.MsgParameterStatus _ =>
              (* handled by ReceiveMessage *)
              Connect_loop fuel pgConn
          | pgproto3.MsgErrorResponse msg =>
              Done (None, Some (PgError_error (PgError_of msg)), NetConn pgConn)
          | pgproto3.OtherMessage _ =>
              Done (None, Some (errors_New "unexpected message"), NetConn pgConn)
          end
      end
  end.

(** [Connect] up to the loop: defaults, dial, TLS, codec, startup frame.
    It gives the handle the loop starts from, or the error [Connect] returns
    at once, and next to either the byte stream as it stands. *)
Definition Connect_setup (env : Env) (cc : ConnConfig) : run (result PgConn * option net.Conn) :=
  let '(err, cc) := assignDefaults env cc in
  match err with
  | Some err => Done (Err err, None)
  | None =>
      let pgConn := new_PgConn in
      let pgConn := set_Config pgConn cc in
      match Dial cc with
      | None => Panic
      | Some dial =>
          let '(network, address) := NetworkAddress env cc in
          match dial network address with
          | Err err => Done (Err err, None)
          | Ok conn =>
              let pgConn := set_NetConn pgConn (Some conn) in
              let pgConn := set_parameterStatuses pgConn (Some ∅) in
              '(err, pgConn) ←
                match TLSConfig cc with
                | Some tlsConfig => startTLS pgConn tlsConfig
                | None => Done (None, pgConn)
                end;
              match err with
              | Some err => Done (Err err, NetConn pgConn)
              | None =>
                  match NetConn pgConn with
                  | None => Panic
                  | Some conn =>
                      match pgproto3_NewFrontend env conn with
                      | Err err => Done (Err err, NetConn pgConn)
                      | Ok frontend =>
                          let pgConn := set_Frontend pgConn (Some frontend) in
                          let startupMsg := Connect_startupMsg cc in
                          let '(err, conn) :=
                            net.Write conn (net.Encoded (pgproto3.MsgStartup startupMsg)) in
                          let pgConn := set_NetConn pgConn (Some conn) in
                          match err with
                          | Some err => Done (Err err, NetConn pgConn)
                          | None => Done (Ok pgConn, NetConn pgConn)
                          end
                      end
                  end
              end
          end
      end
  end.

Definition Connect (fuel : nat) (env : Env) (cc : ConnConfig) : run returned :=
  '(r, wire) ← Connect_setup env cc;
  match r with
  | Err err => Done (None, Some err, wire)
  | Ok pgConn => Connect_loop fuel pgConn
  end.

(** ** Predicates used in the statements *)

(** A frame after which the handshake loop goes round again, given that the
    transport accepts what the authentication writes. *)
Definition continues (r : result pgproto3.BackendMessage) : Prop :=
  match r with
  | Ok (pgproto3.MsgBackendKeyData _) => True
  | Ok (pgproto3.MsgParameterStatus _) => True
  | Ok (pgproto3.MsgAuthentication a) =>
      pgproto3.Type' a = pgproto3.AuthTypeOk
      \/ pgproto3.Type' a = pgproto3.AuthTypeCleartextPassword
      \/ pgproto3.Type' a = pgproto3.AuthTypeMD5Password
  | _ => False
  end.

(** The write was accepted by the transport. *)
Definition accepted (w : net.payload * option error) : Prop := snd w = None.

(** The write carries a password-response frame. *)
Definition is_password_frame (w : net.payload * option error) : Prop :=
  match fst w with
  | net.Encoded (pgproto3.MsgPassword _) => True
  | _ => False
  end.

(** The handle [Connect] has built when it enters its loop, given the
    configuration with its defaults, the stream and the codec. *)
Definition entering (cc : ConnConfig) (conn : net.Conn) (frontend : pgproto3.Frontend) : PgConn :=
  {| NetConn := Some conn; PID := 0; SecretKey := 0; parameterStatuses := Some ∅;
     TxStatus := Ascii.zero; Frontend := Some frontend; Config := cc |}.

(** Paths that are already clean: elements without a slash, none of them
    empty, [.] or [..], joined by single slashes, after the root or not. *)
Fixpoint no_slash (s : string) : bool :=
  match s with
  | EmptyString => true
  | String c rest => negb (Ascii.eqb c "/") && no_slash rest
  end.

Definition plain_element (e : string) : bool :=
  no_slash e && negb (String.eqb e "") && negb (String.eqb e ".")
  && negb (String.eqb e "..").

Definition clean_path (rooted : bool) (elems : list string) : string :=
  (if rooted then "/" else "") ++ strings.Join elems "/".

(** ** Sample inputs

    A server that accepts TLS and sends authentication-ok, backend-key-data
    and ready-for-query; and a configuration that names a socket directory
    with a trailing slash. *)

Module Sample.

Definition stream : net.Conn :=
  {| net.tlsClient := None; net.written := []; net.writeScript := [];
     net.readScript := [Ok "S"%char] |}.

Definition salt : ascii * ascii * ascii * ascii := ("a", "b", "c", "d")%char.

Definition keyData : pgproto3.BackendKeyData :=
  {| pgproto3.ProcessID := 4242; pgproto3.SecretKey := 99 |}.

Definition idle : pgproto3.ReadyForQuery := {| pgproto3.TxStatus := "I" |}.

Definition server_version : pgproto3.ParameterStatus :=
  {| pgproto3.Name := "server_version"; pgproto3.Value := "9.6" |}.

Definition failure : pgproto3.ErrorResponse :=
  {| pgproto3.Severity := "FATAL"; pgproto3.Code := "28P01";
     pgproto3.Message := "password authentication failed";
     pgproto3.Detail := ""; pgproto3.Hint := ""; pgproto3.Position := 0;
     pgproto3.InternalPosition := 0; pgproto3.InternalQuery := "";
     pgproto3.Where := ""; pgproto3.SchemaName := ""; pgproto3.TableName := "";
     pgproto3.ColumnName := ""; pgproto3.DataTypeName := "";
     pgproto3.ConstraintName := ""; pgproto3.File := "auth.c";
     pgproto3.Line := 285; pgproto3.Routine := "auth_failed" |}.

Definition greeting : list (result pgproto3.BackendMessage) :=
  [ Ok (pgproto3.MsgAuthentication
          {| pgproto3.Type' := pgproto3.AuthTypeOk; pgproto3.Salt := salt |});
    Ok (pgproto3.MsgBackendKeyData keyData);
    Ok (pgproto3.MsgReadyForQuery idle) ].

Definition rejection : list (result pgproto3.BackendMessage) :=
  [ Ok (pgproto3.MsgParameterStatus server_version);
    Ok (pgproto3.MsgErrorResponse failure) ].

Definition env (frames : list (result pgproto3.BackendMessage)) : Env :=
  {| os_Stat := fun name => String.eqb name "/tmp/";
     user_Current := Ok "alice";
     net_Dialer_Dial := fun _ _ _ => Ok stream;
     pgproto3_NewFrontend := fun _ => Ok {| pgproto3.script := frames |} |}.

Definition cc : ConnConfig :=
  {| Host := "/tmp/"; Port := 5432; Database := "orders"; User := "";
     Password := "secret"; TLSConfig := None; Dial := None;
     RuntimeParams := {[ "database" := "postgres"; "application_name" := "psql" ]} |}.

(** A handle as it stands in the middle of a session. *)
Definition session (frames : list (result pgproto3.BackendMessage)) : PgConn :=
  {| NetConn := Some stream; PID := 4242; SecretKey := 99;
     parameterStatuses := Some ∅; TxStatus := "I";
     Frontend := Some {| pgproto3.script := frames |};
     Config := {| Host := "db"; Port := 5432; Database := ""; User := "postgres";
                  Password := "secret"; TLSConfig := None; Dial := None;
                  RuntimeParams := ∅ |} |}.

(** A server that refuses TLS. *)
Definition refusing : net.Conn :=
  {| net.tlsClient := None; net.written := []; net.writeScript := [];
     net.readScript := [Ok "N"%char] |}.

Definition tlsConfig : tls.Config :=
  {| tls.ServerName := "db.example.org"; tls.InsecureSkipVerify := false |}.

(** The parts of what a run of [Connect] returned. *)
Definition handle_of (r : run returned) : option PgConn :=
  match r with
  | Done (h, _, _) => h
  | _ => None
  end.

Definition error_of (r : run returned) : option error :=
  match r with
  | Done (_, e, _) => e
  | _ => None
  end.

Definition wire_of (r : run returned) : net.Conn :=
  match r with
  | Done (_, _, Some w) => w
  | _ => stream
  end.

(** The handle [Connect] enters its loop with, for [env frames] and [cc]. *)
Definition entered (frames : list (result pgproto3.BackendMessage)) : PgConn :=
  let cc' := snd (assignDefaults (env frames) cc) in
  entering cc'
    (snd (net.Write stream (net.Encoded (pgproto3.MsgStartup (Connect_startupMsg cc')))))
    {| pgproto3.script := frames |}.

End Sample.

(** ** What the handshake is asked for and told

    The [Error] text of an error value, and what a run of frames received
    before ready-for-query calls for: the password responses, the parameters
    reported and the key data, each in the order of arrival. *)

(** The method [Error] of the interface [error]. *)
Definition error_Error (e : error) : string :=
  match e with
  | errors_New text => text
  | PgError_error pe => PgError_Error pe
  | foreign_error text => text
  end.

Definition password_reply (cc : ConnConfig) (r : result pgproto3.BackendMessage)
    : list net.payload :=
  match r with
  | Ok (pgproto3.MsgAuthentication a) =>
      if pgproto3.Type' a =? pgproto3.AuthTypeOk then []
      else if pgproto3.Type' a =? pgproto3.AuthTypeCleartextPassword then
        [net.Encoded (pgproto3.MsgPassword {| pgproto3.Password := Password cc |})]
      else if pgproto3.Type' a =? pgproto3.AuthTypeMD5Password then
        [net.Encoded
           (pgproto3.MsgPassword
              {| pgproto3.Password :=
                   "md5" ++ hexMD5 (hexMD5 (Password cc ++ User cc)
                                    ++ string_of_Salt (pgproto3.Salt a)) |})]
      else []
  | _ => []
  end.

Definition password_replies (cc : ConnConfig) (pre : list (result pgproto3.BackendMessage))
    : list net.payload :=
  List.flat_map (password_reply cc) pre.

Definition reported (statuses : gmap string string)
    (pre : list (result pgproto3.BackendMessage)) : gmap string string :=
  List.fold_left
    (fun (acc : gmap string string) r =>
       match r with
       | Ok (pgproto3.MsgParameterStatus m) => <[pgproto3.Name m := pgproto3.Value m]> acc
       | _ => acc
       end)
    pre statuses.

Definition keyData_after (key : Z * Z) (pre : list (result pgproto3.BackendMessage)) : Z * Z :=
  List.fold_left
    (fun (acc : Z * Z) r =>
       match r with
       | Ok (pgproto3.MsgBackendKeyData m) => (pgproto3.ProcessID m, pgproto3.SecretKey m)
       | _ => acc
       end)
    pre key.

(** The frame is a parameter-status frame for [key]. *)
Definition reports (key : string) (r : result pgproto3.BackendMessage) : Prop :=
  match r with
  | Ok (pgproto3.MsgParameterStatus m) => pgproto3.Name m = key
  | _ => False
  end.

Definition is_keyData (r : result pgproto3.BackendMessage) : Prop :=
  match r with
  | Ok (pgproto3.MsgBackendKeyData _) => True
  | _ => False
  end.

Definition is_authentication (r : result pgproto3.BackendMessage) : Prop :=
  match r with
  | Ok (pgproto3.MsgAuthentication _) => True
  | _ => False
  end.

(** The write carries an encoded frame, not raw bytes. *)
Definition is_encoded (w : net.payload * option error) : Prop :=
  match fst w with
  | net.Encoded _ => True
  | net.Bytes _ => False
  end.

(** [cc] with another host. *)
Definition with_Host (cc : ConnConfig) (host : string) : ConnConfig :=
  {| Host := host; Port := Port cc; Database := Database cc; User := User cc;
     Password := Password cc; TLSConfig := TLSConfig cc; Dial := Dial cc;
     RuntimeParams := RuntimeParams cc |}.

(** ** A longer handshake

    A server that reports its version twice, asks for an MD5 password, sends
    key data twice, and has a notification waiting behind ready-for-query. *)

Module Scenario.

Definition md5_request : pgproto3.Authentication :=
  {| pgproto3.Type' := pgproto3.AuthTypeMD5Password; pgproto3.Salt := Sample.salt |}.

Definition before_ready : list (result pgproto3.BackendMessage) :=
  [ Ok (pgproto3.MsgParameterStatus
          {| pgproto3.Name := "server_version"; pgproto3.Value := "9.5" |});
    Ok (pgproto3.MsgAuthentication md5_request);
    Ok (pgproto3.MsgParameterStatus Sample.server_version);
    Ok (pgproto3.MsgBackendKeyData {| pgproto3.ProcessID := 1; pgproto3.SecretKey := 2 |});
    Ok (pgproto3.MsgBackendKeyData Sample.keyData) ].

Definition frames : list (result pgproto3.BackendMessage) :=
  (before_ready
   ++ [ Ok (pgproto3.MsgReadyForQuery Sample.idle); Ok (pgproto3.OtherMessage "A") ])%list.

(** No authentication request at all. *)
Definition trusting : list (result pgproto3.BackendMessage) :=
  [ Ok (pgproto3.MsgBackendKeyData Sample.keyData);
    Ok (pgproto3.MsgReadyForQuery Sample.idle) ].

Definition tls_cc : ConnConfig :=
  {| Host := "db.example.org"; Port := 0; Database := ""; User := "postgres";
     Password := "secret"; TLSConfig := Some Sample.tlsConfig; Dial := None;
     RuntimeParams := ∅ |}.

(** The handle a run of [Connect] returned. *)
Definition handle_of (r : run returned) : PgConn :=
  match r with
  | Done (Some h, _, _) => h
  | _ => new_PgConn
  end.

Definition outcome (fuel : nat) (env : Env) (cc : ConnConfig) : returned :=
  (Some (handle_of (Connect fuel env cc)), Sample.error_of (Connect fuel env cc),
   Some (Sample.wire_of (Connect fuel env cc))).

End Scenario.

(** ** The salted-hash credential in the spec's words

    Following the spec's words: hash(hash(password + username) as lowercase
    hex text concatenated with the server-supplied salt bytes), hex-encoded,
    prefixed with a fixed 3-character marker.  [hash] is the digest on
    bytes; the code is compared with this at [MD5.sum]. *)
Definition salted_hash_credential (hash : list Z -> list Z)
    (password user salt : string) : string :=
  let inner := Hex.EncodeToString (hash (bytes_of_string (password ++ user))) in
  "md5" ++ Hex.EncodeToString (hash (bytes_of_string (inner ++ salt))).

(** * Properties *)

Example hexMD5_empty : hexMD5 "" = "d41d8cd98f00b204e9800998ecf8427e".
Proof. vm_compute. reflexivity. Qed.

Example hexMD5_abc : hexMD5 "abc" = "900150983cd24fb0d6963f7d28e17f72".
Proof. vm_compute. reflexivity. Qed.

Example hexMD5_fox :
  hexMD5 "The quick brown fox jumps over the lazy dog" = "9e107d9d372bb6826bd81d3542a419d6".
Proof. vm_compute. reflexivity. Qed.

Example hexMD5_one_block :
  hexMD5 "aaaaaaaaaaaaaaaaaaaaaaaaaaaaaaaaaaaaaaaaaaaaaaaaaaaaaaaaaaaaaaaa"
  = "014842d480b571495a4a0363793f7367".
Proof. vm_compute. reflexivity. Qed.

Example hexMD5_56_bytes :
  hexMD5 "aaaaaaaaaaaaaaaaaaaaaaaaaaaaaaaaaaaaaaaaaaaaaaaaaaaaaaaa"
  = "3b0c8ac703f828b04c6c197006d17218".
Proof. vm_compute. reflexivity. Qed.


(** Splits a conjunction into its parts, and nothing else. *)
Ltac conjs := repeat match goal with |- _ /\ _ => split end.

(** ** ReceiveMessage and ParameterStatus *)

Lemma ParameterStatus_insert (pgConn : PgConn) (statuses : gmap string string) name value key :
  ParameterStatus (set_parameterStatuses pgConn (Some (<[name := value]> statuses))) key
  = if String.eqb key name then value
    else ParameterStatus (set_parameterStatuses pgConn (Some statuses)) key.
Proof.
  unfold ParameterStatus; simpl.
  destruct (String.eqb_spec key name) as [->|Hne].
  - by rewrite lookup_insert_eq.
  - by rewrite lookup_insert_ne.
Qed.

(** A handle that [Connect] did not build may have no parameter mapping;
    a parameter-status frame then stops the call with a panic, which is why
    the statements below ask for the mapping. *)
Lemma ReceiveMessage_nil_map_panics
    (pgConn : PgConn) (frontend frontend' : pgproto3.Frontend) (m : pgproto3.ParameterStatus) :
  Frontend pgConn = Some frontend ->
  pgproto3.Receive frontend = (Ok (pgproto3.MsgParameterStatus m), frontend') ->
  parameterStatuses pgConn = None ->
  ReceiveMessage pgConn = Panic.
Proof.
  intros Hfe Hrecv Hps. unfold ReceiveMessage. rewrite Hfe, Hrecv. simpl. rewrite Hps.
  reflexivity.
Qed.

(** C10: when the codec's receive fails, [ReceiveMessage] returns no message
    and that error, and the handle keeps its transaction status, its
    parameter mapping and every other field but the codec's own position. *)
Theorem ReceiveMessage_error_keeps_state
    (pgConn : PgConn) (frontend frontend' : pgproto3.Frontend) (err : error) :
  Frontend pgConn = Some frontend ->
  pgproto3.Receive frontend = (Err err, frontend') ->
  exists pgConn',
    ReceiveMessage pgConn = Done (Err err, pgConn')
    /\ TxStatus pgConn' = TxStatus pgConn
    /\ parameterStatuses pgConn' = parameterStatuses pgConn
    /\ (forall key, ParameterStatus pgConn' key = ParameterStatus pgConn key)
    /\ pgConn' = set_Frontend pgConn (Some frontend').
Proof.
  intros Hfe Hrecv.
  exists (set_Frontend pgConn (Some frontend')).
  unfold ReceiveMessage. rewrite Hfe, Hrecv.
  repeat split; reflexivity.
Qed.

Lemma ReceiveMessage_error_keeps_state_witness :
  exists pgConn',
    ReceiveMessage
      (set_parameterStatuses
         (Sample.session [Err (foreign_error "i/o timeout");
                          Ok (pgproto3.MsgReadyForQuery {| pgproto3.TxStatus := "T" |})])
         (Some {[ "server_version" := "9.6"; "TimeZone" := "UTC" ]}))
    = Done (Err (foreign_error "i/o timeout"), pgConn')
    /\ TxStatus pgConn' = "I"%char
    /\ parameterStatuses pgConn' = Some {[ "server_version" := "9.6"; "TimeZone" := "UTC" ]}
    /\ ParameterStatus pgConn' "server_version" = "9.6"
    /\ ParameterStatus pgConn' "TimeZone" = "UTC"
    /\ PID pgConn' = 4242
    /\ Frontend pgConn'
       = Some {| pgproto3.script :=
                   [Ok (pgproto3.MsgReadyForQuery {| pgproto3.TxStatus := "T" |})] |}.
Proof.
  destruct (ReceiveMessage_error_keeps_state
              (set_parameterStatuses
                 (Sample.session [Err (foreign_error "i/o timeout");
                                  Ok (pgproto3.MsgReadyForQuery
                                        {| pgproto3.TxStatus := "T" |})])
                 (Some {[ "server_version" := "9.6"; "TimeZone" := "UTC" ]}))
              {| pgproto3.script :=
                   [Err (foreign_error "i/o timeout");
                    Ok (pgproto3.MsgReadyForQuery {| pgproto3.TxStatus := "T" |})] |}
              {| pgproto3.script :=
                   [Ok (pgproto3.MsgReadyForQuery {| pgproto3.TxStatus := "T" |})] |}
              (foreign_error "i/o timeout") eq_refl eq_refl)
    as (pgConn' & Hrun & Htx & Hps & Hlookup & Hpg).
  exists pgConn'. split; [exact Hrun|]. split; [exact Htx|]. split; [exact Hps|].
  split; [rewrite Hlookup; vm_compute; reflexivity|].
  split; [rewrite Hlookup; vm_compute; reflexivity|].
  rewrite Hpg. split; reflexivity.
Defined.

(** C8: a decoded message is returned as it is; before that the transaction
    status is overwritten exactly for a ready-for-query frame and the
    parameter mapping is upserted exactly for a parameter-status frame, so
    that [ParameterStatus] gives the reported value for the reported name,
    what it gave before for every other name, and the empty string for a
    name that is not in the mapping. *)
Theorem ReceiveMessage_tracks_state
    (pgConn : PgConn) (frontend frontend' : pgproto3.Frontend)
    (msg : pgproto3.BackendMessage) (statuses : gmap string string) :
  Frontend pgConn = Some frontend ->
  pgproto3.Receive frontend = (Ok msg, frontend') ->
  parameterStatuses pgConn = Some statuses ->
  exists pgConn',
    ReceiveMessage pgConn = Done (Ok msg, pgConn')
    /\ TxStatus pgConn'
       = match msg with
         | pgproto3.MsgReadyForQuery m => pgproto3.TxStatus m
         | _ => TxStatus pgConn
         end
    /\ parameterStatuses pgConn'
       = Some match msg with
              | pgproto3.MsgParameterStatus m =>
                  <[pgproto3.Name m := pgproto3.Value m]> statuses
              | _ => statuses
              end
    /\ (forall key,
          ParameterStatus pgConn' key
          = match msg with
            | pgproto3.MsgParameterStatus m =>
                if String.eqb key (pgproto3.Name m) then pgproto3.Value m
                else ParameterStatus pgConn key
            | _ => ParameterStatus pgConn key
            end)
    /\ (forall key,
          parameterStatuses pgConn' ≫= (.!! key) = None ->
          ParameterStatus pgConn' key = "")
    /\ PID pgConn' = PID pgConn
    /\ SecretKey pgConn' = SecretKey pgConn
    /\ NetConn pgConn' = NetConn pgConn
    /\ Config pgConn' = Config pgConn
    /\ Frontend pgConn' = Some frontend'.
Proof.
  intros Hfe Hrecv Hps.
  unfold ReceiveMessage. rewrite Hfe, Hrecv.
  destruct msg as [m|m|m|m|m|k]; simpl; rewrite ?Hps;
    eexists; (split; [reflexivity|]); simpl;
    repeat split; try reflexivity; try assumption;
    try (intros key; unfold ParameterStatus; simpl; rewrite ?Hps; simpl;
         try (intros ->); reflexivity).
  intros key. unfold ParameterStatus; simpl. rewrite Hps.
  destruct (String.eqb_spec key (pgproto3.Name m)) as [->|Hne].
  - by rewrite lookup_insert_eq.
  - by rewrite lookup_insert_ne.
Qed.

Lemma ReceiveMessage_tracks_state_witness :
  exists pgConn',
    ReceiveMessage
      (Sample.session [Ok (pgproto3.MsgParameterStatus Sample.server_version)])
    = Done (Ok (pgproto3.MsgParameterStatus Sample.server_version), pgConn')
    /\ ParameterStatus pgConn' "server_version" = "9.6"
    /\ ParameterStatus pgConn' "TimeZone" = ""
    /\ TxStatus pgConn' = "I"%char.
Proof.
  destruct (ReceiveMessage_tracks_state
              (Sample.session [Ok (pgproto3.MsgParameterStatus Sample.server_version)])
              {| pgproto3.script := [Ok (pgproto3.MsgParameterStatus Sample.server_version)] |}
              {| pgproto3.script := [] |}
              (pgproto3.MsgParameterStatus Sample.server_version) ∅
              eq_refl eq_refl eq_refl)
    as (pgConn' & Hrun & Htx & Hps & Hlookup & Hmissing & _).
  exists pgConn'. split; [exact Hrun|]. split; [|split].
  - rewrite Hlookup. reflexivity.
  - apply Hmissing. rewrite Hps. reflexivity.
  - exact Htx.
Defined.

(** ** startTLS *)

(** The request [startTLS] writes: the length 8 and the code 80877103. *)
Example startTLS_request_bytes :
  List.concat (List.map binary.BigEndian_int32 [8; 80877103]) = [0; 0; 0; 8; 4; 210; 22; 47].
Proof. reflexivity. Qed.

(** C5: once the request is written and one response byte is read, any byte
    but 'S' makes [startTLS] return [ErrTLSRefused], which no transport error
    equals, with the stream left as it was (no [tls.Client] around it, only
    the request written); the byte 'S' makes it put a [tls.Client] with the
    given policy around the stream and return no error. *)
Theorem startTLS_response
    (pgConn : PgConn) (tlsConfig : tls.Config) (conn conn1 : net.Conn)
    (response : ascii) (rest : list (result ascii)) :
  NetConn pgConn = Some conn ->
  binary.Write conn [8; 80877103] = (None, conn1) ->
  net.readScript conn1 = Ok response :: rest ->
  exists conn2,
    net.ReadFull1 conn1 = (Ok response, conn2)
    /\ net.tlsClient conn2 = net.tlsClient conn
    /\ net.written conn2
       = (net.written conn ++ [(net.Bytes [0; 0; 0; 8; 4; 210; 22; 47], None)])%list
    /\ (response <> "S"%char ->
        startTLS pgConn tlsConfig = Done (Some ErrTLSRefused, set_NetConn pgConn (Some conn2)))
    /\ (response = "S"%char ->
        startTLS pgConn tlsConfig
        = Done (None, set_NetConn pgConn (Some (net.tls_Client conn2 tlsConfig)))
        /\ net.tlsClient (net.tls_Client conn2 tlsConfig) = Some tlsConfig
        /\ net.written (net.tls_Client conn2 tlsConfig) = net.written conn2)
    /\ (forall text, ErrTLSRefused <> foreign_error text).
Proof.
  intros Hconn Hwrite Hread.
  assert (Hlog : net.tlsClient conn1 = net.tlsClient conn
                 /\ net.written conn1
                    = (net.written conn
                       ++ [(net.Bytes [0; 0; 0; 8; 4; 210; 22; 47], None)])%list).
  { unfold binary.Write, net.Write in Hwrite.
    destruct (net.writeScript conn) as [|o script]; inversion Hwrite; subst; simpl; auto. }
  destruct Hlog as [Htls Hlog].
  eexists. split.
  { unfold net.ReadFull1. rewrite Hread. reflexivity. }
  simpl. split; [assumption|]. split; [assumption|].
  split; [|split].
  - intros Hne. unfold startTLS. rewrite Hconn, Hwrite. simpl.
    unfold net.ReadFull1. rewrite Hread.
    destruct (Ascii.eqb_spec response "S"%char) as [->|_]; [contradiction|reflexivity].
  - intros ->. unfold startTLS. rewrite Hconn, Hwrite. simpl.
    unfold net.ReadFull1. rewrite Hread. repeat split.
  - intros text. discriminate.
Qed.

Lemma startTLS_response_witness :
  startTLS (set_NetConn (Sample.session []) (Some Sample.refusing)) Sample.tlsConfig
  = Done (Some ErrTLSRefused,
          set_NetConn (set_NetConn (Sample.session []) (Some Sample.refusing))
            (Some {| net.tlsClient := None;
                     net.written := [(net.Bytes [0; 0; 0; 8; 4; 210; 22; 47], None)];
                     net.writeScript := []; net.readScript := [] |}))
  /\ startTLS (Sample.session []) Sample.tlsConfig
     = Done (None,
             set_NetConn (Sample.session [])
               (Some {| net.tlsClient := Some Sample.tlsConfig;
                        net.written := [(net.Bytes [0; 0; 0; 8; 4; 210; 22; 47], None)];
                        net.writeScript := []; net.readScript := [] |})).
Proof.
  split.
  - destruct (startTLS_response
                (set_NetConn (Sample.session []) (Some Sample.refusing)) Sample.tlsConfig
                Sample.refusing
                {| net.tlsClient := None;
                   net.written := [(net.Bytes [0; 0; 0; 8; 4; 210; 22; 47], None)];
                   net.writeScript := []; net.readScript := [Ok "N"%char] |}
                "N"%char [] eq_refl eq_refl eq_refl)
      as (conn2 & Hread & _ & _ & Hrefused & _).
    inversion Hread; subst conn2. apply Hrefused. discriminate.
  - destruct (startTLS_response
                (Sample.session []) Sample.tlsConfig Sample.stream
                {| net.tlsClient := None;
                   net.written := [(net.Bytes [0; 0; 0; 8; 4; 210; 22; 47], None)];
                   net.writeScript := []; net.readScript := [Ok "S"%char] |}
                "S"%char [] eq_refl eq_refl eq_refl)
      as (conn2 & Hread & _ & _ & _ & Haccepted & _).
    inversion Hread; subst conn2. apply Haccepted. reflexivity.
Defined.

(** [ErrTLSRefused] tells the refusal apart: on a transport that reports
    only its own errors, [startTLS] returns it only after it read a byte
    other than 'S'. *)
Lemma startTLS_refused_only_by_response
    (pgConn pgConn' : PgConn) (tlsConfig : tls.Config) (conn : net.Conn) :
  NetConn pgConn = Some conn ->
  (forall e, In (Some e) (net.writeScript conn) -> exists text, e = foreign_error text) ->
  (forall e, In (Err e) (net.readScript conn) -> exists text, e = foreign_error text) ->
  startTLS pgConn tlsConfig = Done (Some ErrTLSRefused, pgConn') ->
  exists response rest, net.readScript conn = Ok response :: rest /\ response <> "S"%char.
Proof.
  intros Hconn Hw Hr. unfold startTLS, binary.Write, net.Write, net.ReadFull1.
  rewrite Hconn.
  destruct (net.writeScript conn) as [|[e|] script] eqn:Hscript; simpl.
  - destruct (net.readScript conn) as [|[b|e] rest] eqn:Hreads; simpl.
    + intros H; inversion H.
    + destruct (Ascii.eqb_spec b "S"%char) as [->|Hne]; simpl; intros H; inversion H.
      eauto.
    + intros H; inversion H; subst.
      destruct (Hr _ (or_introl eq_refl)) as [text Htext]. discriminate.
  - intros H; inversion H; subst.
    destruct (Hw _ (or_introl eq_refl)) as [text Htext]. discriminate.
  - destruct (net.readScript conn) as [|[b|e] rest] eqn:Hreads; simpl.
    + intros H; inversion H.
    + destruct (Ascii.eqb_spec b "S"%char) as [->|Hne]; simpl; intros H; inversion H.
      eauto.
    + intros H; inversion H; subst.
      destruct (Hr _ (or_introl eq_refl)) as [text Htext]. discriminate.
Qed.

(** ** hexMD5 *)

Lemma String_length_append (s1 s2 : string) :
  String.length (s1 ++ s2) = (String.length s1 + String.length s2)%nat.
Proof.
  induction s1 as [|a s1 IH]; [reflexivity|].
  change (Datatypes.S (String.length (s1 ++ s2))
          = Datatypes.S (String.length s1 + String.length s2)).
  by rewrite IH.
Qed.

Lemma Hex_digit_lowercase (n : Z) :
  In (Hex.digit n) (list_ascii_of_string "0123456789abcdef").
Proof.
  unfold Hex.digit.
  assert (Hk : (Z.to_nat (n mod 16) < 16)%nat) by (pose proof (Z.mod_pos_bound n 16); lia).
  generalize dependent (Z.to_nat (n mod 16)). intros k Hk.
  do 16 (destruct k as [|k]; [simpl; tauto|]).
  lia.
Qed.

Lemma Hex_EncodeToString_length (bs : list Z) :
  String.length (Hex.EncodeToString bs) = (2 * List.length bs)%nat.
Proof. induction bs as [|b bs IH]; simpl; [reflexivity|rewrite IH; lia]. Qed.

Lemma Hex_EncodeToString_lowercase (bs : list Z) :
  Forall (fun c => In c (list_ascii_of_string "0123456789abcdef"))
         (list_ascii_of_string (Hex.EncodeToString bs)).
Proof.
  induction bs as [|b bs IH]; [constructor|].
  cbn [Hex.EncodeToString list_ascii_of_string].
  constructor; [apply Hex_digit_lowercase|].
  constructor; [apply Hex_digit_lowercase|exact IH].
Qed.

Lemma MD5_sum_length (msg : list Z) : List.length (MD5.sum msg) = 16%nat.
Proof. unfold MD5.sum. cbv zeta. generalize (fold_left MD5.block). intros r. reflexivity. Qed.

(** The digest is printed as 32 characters, all of them lowercase hex. *)
Lemma hexMD5_length (s : string) : String.length (hexMD5 s) = 32%nat.
Proof. unfold hexMD5. rewrite Hex_EncodeToString_length, MD5_sum_length. reflexivity. Qed.

Lemma hexMD5_lowercase (s : string) :
  Forall (fun c => In c (list_ascii_of_string "0123456789abcdef"))
         (list_ascii_of_string (hexMD5 s)).
Proof. apply Hex_EncodeToString_lowercase. Qed.

(** The test suite of RFC 1321. *)
Example hexMD5_a : hexMD5 "a" = "0cc175b9c0f1b6a831c399e269772661".
Proof. vm_compute. reflexivity. Qed.

Example hexMD5_message_digest : hexMD5 "message digest" = "f96b697d7cb7938d525a2f31aaf161d0".
Proof. vm_compute. reflexivity. Qed.

Example hexMD5_alphabet :
  hexMD5 "abcdefghijklmnopqrstuvwxyz" = "c3fcd3d76192e4007dfb496cca67e13b".
Proof. vm_compute. reflexivity. Qed.

Example hexMD5_alphanumeric :
  hexMD5 "ABCDEFGHIJKLMNOPQRSTUVWXYZabcdefghijklmnopqrstuvwxyz0123456789"
  = "d174ab98d277d9f5a5611c2c9f419d9f".
Proof. vm_compute. reflexivity. Qed.

Example hexMD5_digits :
  hexMD5 "12345678901234567890123456789012345678901234567890123456789012345678901234567890"
  = "57edf4a22be3c955ac49da2e2107b67a".
Proof. vm_compute. reflexivity. Qed.

(** ** Authentication *)

Lemma txPasswordMessage_writes_one (pgConn : PgConn) (conn : net.Conn) (password : string) :
  NetConn pgConn = Some conn ->
  exists err conn',
    txPasswordMessage pgConn password = Done (err, set_NetConn pgConn (Some conn'))
    /\ net.written conn'
       = (net.written conn
          ++ [(net.Encoded (pgproto3.MsgPassword {| pgproto3.Password := password |}), err)])%list
    /\ net.tlsClient conn' = net.tlsClient conn
    /\ net.readScript conn' = net.readScript conn
    /\ err = match net.writeScript conn with [] => None | o :: _ => o end.
Proof.
  intros Hconn. unfold txPasswordMessage, net.Write. rewrite Hconn.
  destruct (net.writeScript conn) as [|o script]; do 2 eexists; repeat split.
Qed.

(** C7: with a stream in place, the dispatch writes exactly one
    password-response frame for the cleartext discriminant (the configured
    password as it is) and for the salted-hash one, and returns what the
    transport reported for that write; it writes nothing and returns no
    error for the no-further-action discriminant; for every other
    discriminant it writes nothing and fails with the error for an unknown
    authentication message. *)
Theorem rxAuthenticationX_frames
    (c : PgConn) (msg : pgproto3.Authentication) (conn : net.Conn) :
  NetConn c = Some conn ->
  (pgproto3.Type' msg = pgproto3.AuthTypeOk ->
     rxAuthenticationX c msg = Done (None, c))
  /\ (pgproto3.Type' msg = pgproto3.AuthTypeCleartextPassword ->
      exists err conn',
        rxAuthenticationX c msg = Done (err, set_NetConn c (Some conn'))
        /\ net.written conn'
           = (net.written conn
              ++ [(net.Encoded
                     (pgproto3.MsgPassword {| pgproto3.Password := Password (Config c) |}),
                   err)])%list)
  /\ (pgproto3.Type' msg = pgproto3.AuthTypeMD5Password ->
      exists err conn' digestedPassword,
        rxAuthenticationX c msg = Done (err, set_NetConn c (Some conn'))
        /\ net.written conn'
           = (net.written conn
              ++ [(net.Encoded
                     (pgproto3.MsgPassword {| pgproto3.Password := digestedPassword |}),
                   err)])%list)
  /\ (pgproto3.Type' msg <> pgproto3.AuthTypeOk ->
      pgproto3.Type' msg <> pgproto3.AuthTypeCleartextPassword ->
      pgproto3.Type' msg <> pgproto3.AuthTypeMD5Password ->
      rxAuthenticationX c msg
      = Done (Some (errors_New "Received unknown authentication message"), c)).
Proof.
  intros Hconn. unfold rxAuthenticationX.
  split; [|split; [|split]].
  - intros ->. reflexivity.
  - intros ->. simpl.
    destruct (txPasswordMessage_writes_one c conn (Password (Config c)) Hconn)
      as (err & conn' & Hrun & Hlog & _).
    exists err, conn'. auto.
  - intros ->. simpl.
    destruct (txPasswordMessage_writes_one c conn
                ("md5" ++ hexMD5 (hexMD5 (Password (Config c) ++ User (Config c))
                                  ++ string_of_Salt (pgproto3.Salt msg))) Hconn)
      as (err & conn' & Hrun & Hlog & _).
    exists err, conn'. eexists. split; [exact Hrun|exact Hlog].
  - intros H0 H3 H5.
    apply Z.eqb_neq in H0, H3, H5. rewrite H0, H3, H5. reflexivity.
Qed.

Lemma rxAuthenticationX_frames_witness :
  exists err conn',
    rxAuthenticationX (Sample.session [])
      {| pgproto3.Type' := pgproto3.AuthTypeCleartextPassword; pgproto3.Salt := Sample.salt |}
    = Done (err, set_NetConn (Sample.session []) (Some conn'))
    /\ net.written conn'
       = [(net.Encoded (pgproto3.MsgPassword {| pgproto3.Password := "secret" |}), err)].
Proof.
  destruct (rxAuthenticationX_frames (Sample.session [])
              {| pgproto3.Type' := pgproto3.AuthTypeCleartextPassword;
                 pgproto3.Salt := Sample.salt |}
              Sample.stream eq_refl)
    as (_ & Hcleartext & _).
  exact (Hcleartext eq_refl).
Defined.

(** C6: for the salted-hash discriminant the password-response frame carries
    the credential of the spec's words at MD5: "md5" followed by the
    lowercase hex MD5 digest of (the lowercase hex MD5 digest of password
    and user) followed by the salt.  It is 35 characters long, lowercase hex
    after the marker, and the same for every handle and challenge with that
    password, user and salt.  The digest is MD5: it gives the digests of the
    test suite of RFC 1321, and the credential of the fixed vector. *)
Theorem rxAuthenticationX_md5_credential
    (c : PgConn) (msg : pgproto3.Authentication) (conn : net.Conn) :
  NetConn c = Some conn ->
  pgproto3.Type' msg = pgproto3.AuthTypeMD5Password ->
  let credential :=
    salted_hash_credential MD5.sum (Password (Config c)) (User (Config c))
      (string_of_Salt (pgproto3.Salt msg)) in
  (exists err conn',
     rxAuthenticationX c msg = Done (err, set_NetConn c (Some conn'))
     /\ net.written conn'
        = (net.written conn
           ++ [(net.Encoded (pgproto3.MsgPassword {| pgproto3.Password := credential |}),
                err)])%list)
  /\ String.length credential = 35%nat
  /\ (exists digest,
        credential = "md5" ++ digest
        /\ Forall (fun ch => In ch (list_ascii_of_string "0123456789abcdef"))
                  (list_ascii_of_string digest))
  /\ (forall (c2 : PgConn) (msg2 : pgproto3.Authentication) (conn2 : net.Conn),
        NetConn c2 = Some conn2 ->
        pgproto3.Type' msg2 = pgproto3.AuthTypeMD5Password ->
        Password (Config c2) = Password (Config c) ->
        User (Config c2) = User (Config c) ->
        pgproto3.Salt msg2 = pgproto3.Salt msg ->
        exists err2 conn2',
          rxAuthenticationX c2 msg2 = Done (err2, set_NetConn c2 (Some conn2'))
          /\ net.written conn2'
             = (net.written conn2
                ++ [(net.Encoded (pgproto3.MsgPassword {| pgproto3.Password := credential |}),
                     err2)])%list)
  /\ List.map (fun s => Hex.EncodeToString (MD5.sum (bytes_of_string s)))
       [ ""; "a"; "abc"; "message digest"; "abcdefghijklmnopqrstuvwxyz";
         "ABCDEFGHIJKLMNOPQRSTUVWXYZabcdefghijklmnopqrstuvwxyz0123456789";
         "12345678901234567890123456789012345678901234567890123456789012345678901234567890" ]
     = [ "d41d8cd98f00b204e9800998ecf8427e"; "0cc175b9c0f1b6a831c399e269772661";
         "900150983cd24fb0d6963f7d28e17f72"; "f96b697d7cb7938d525a2f31aaf161d0";
         "c3fcd3d76192e4007dfb496cca67e13b"; "d174ab98d277d9f5a5611c2c9f419d9f";
         "57edf4a22be3c955ac49da2e2107b67a" ]
  /\ salted_hash_credential MD5.sum "secret" "postgres" "abcd"
     = "md568a34aeb823f3662497ea0b9fb65e46a".
Proof.
  intros Hconn Hty credential.
  assert (Hcode : forall (c2 : PgConn) (msg2 : pgproto3.Authentication),
             Password (Config c2) = Password (Config c) ->
             User (Config c2) = User (Config c) ->
             pgproto3.Salt msg2 = pgproto3.Salt msg ->
             "md5" ++ hexMD5 (hexMD5 (Password (Config c2) ++ User (Config c2))
                              ++ string_of_Salt (pgproto3.Salt msg2))
             = credential).
  { intros c2 msg2 -> -> ->. reflexivity. }
  assert (Hsend : forall (c2 : PgConn) (msg2 : pgproto3.Authentication) (conn2 : net.Conn),
             NetConn c2 = Some conn2 ->
             pgproto3.Type' msg2 = pgproto3.AuthTypeMD5Password ->
             Password (Config c2) = Password (Config c) ->
             User (Config c2) = User (Config c) ->
             pgproto3.Salt msg2 = pgproto3.Salt msg ->
             exists err2 conn2',
               rxAuthenticationX c2 msg2 = Done (err2, set_NetConn c2 (Some conn2'))
               /\ net.written conn2'
                  = (net.written conn2
                     ++ [(net.Encoded
                            (pgproto3.MsgPassword {| pgproto3.Password := credential |}),
                          err2)])%list).
  { intros c2 msg2 conn2 Hconn2 Hty2 Hpw Hus Hsalt.
    unfold rxAuthenticationX. rewrite Hty2. cbn [Z.eqb pgproto3.AuthTypeMD5Password
      pgproto3.AuthTypeOk pgproto3.AuthTypeCleartextPassword Pos.eqb].
    rewrite (Hcode c2 msg2 Hpw Hus Hsalt).
    destruct (txPasswordMessage_writes_one c2 conn2 credential Hconn2)
      as (err & conn' & Hrun & Hlog & _).
    exists err, conn'. split; [exact Hrun|exact Hlog]. }
  split; [apply (Hsend c msg conn); auto|].
  split; [|split; [|split; [exact Hsend|split]]].
  - rewrite <- (Hcode c msg eq_refl eq_refl eq_refl).
    rewrite String_length_append, hexMD5_length. reflexivity.
  - exists (hexMD5 (hexMD5 (Password (Config c) ++ User (Config c))
                    ++ string_of_Salt (pgproto3.Salt msg))).
    split; [symmetry; apply (Hcode c msg); reflexivity|]. apply hexMD5_lowercase.
  - vm_compute. reflexivity.
  - vm_compute. reflexivity.
Qed.

Lemma rxAuthenticationX_md5_credential_witness :
  exists err conn',
    rxAuthenticationX (Sample.session [])
      {| pgproto3.Type' := pgproto3.AuthTypeMD5Password; pgproto3.Salt := Sample.salt |}
    = Done (err, set_NetConn (Sample.session []) (Some conn'))
    /\ net.written conn'
       = [(net.Encoded
             (pgproto3.MsgPassword
                {| pgproto3.Password := "md568a34aeb823f3662497ea0b9fb65e46a" |}),
           err)].
Proof.
  destruct (rxAuthenticationX_md5_credential (Sample.session [])
              {| pgproto3.Type' := pgproto3.AuthTypeMD5Password;
                 pgproto3.Salt := Sample.salt |}
              Sample.stream eq_refl eq_refl)
    as ((err & conn' & Hrun & Hlog) & _ & _ & _ & _ & Hvector).
  exists err, conn'. split; [exact Hrun|].
  rewrite Hlog.
  change (salted_hash_credential MD5.sum
            (Password (Config (Sample.session [])))
            (User (Config (Sample.session [])))
            (string_of_Salt
               (pgproto3.Salt
                  {| pgproto3.Type' := pgproto3.AuthTypeMD5Password;
                     pgproto3.Salt := Sample.salt |})))
    with (salted_hash_credential MD5.sum "secret" "postgres" "abcd").
  rewrite Hvector. reflexivity.
Defined.

(** A fixed vector: password "secret", user "postgres", salt "abcd". *)
Example md5_credential_vector :
  "md5" ++ hexMD5 (hexMD5 ("secret" ++ "postgres") ++ string_of_Salt ("a", "b", "c", "d")%char)
  = "md568a34aeb823f3662497ea0b9fb65e46a".
Proof. vm_compute. reflexivity. Qed.

(** ** The handshake loop *)

Lemma ReceiveMessage_unfold (pgConn : PgConn) (frontend : pgproto3.Frontend) :
  Frontend pgConn = Some frontend ->
  ReceiveMessage pgConn
  = match pgproto3.script frontend with
    | [] => Done (Err io_EOF, set_Frontend pgConn (Some frontend))
    | Err err :: rest =>
        Done (Err err, set_Frontend pgConn (Some {| pgproto3.script := rest |}))
    | Ok msg :: rest =>
        let pgConn := set_Frontend pgConn (Some {| pgproto3.script := rest |}) in
        match msg with
        | pgproto3.MsgReadyForQuery m =>
            Done (Ok msg, set_TxStatus pgConn (pgproto3.TxStatus m))
        | pgproto3.MsgParameterStatus m =>
            match parameterStatuses pgConn with
            | None => Panic
            | Some statuses =>
                Done (Ok msg,
                      set_parameterStatuses pgConn
                        (Some (<[pgproto3.Name m := pgproto3.Value m]> statuses)))
            end
        | _ => Done (Ok msg, pgConn)
        end
    end.
Proof.
  intros Hfe. unfold ReceiveMessage, pgproto3.Receive. rewrite Hfe.
  destruct (pgproto3.script frontend) as [|[msg|err] rest]; reflexivity.
Qed.

Lemma Write_accepting (conn conn' : net.Conn) (p : net.payload) (err : option error) :
  Forall (eq None) (net.writeScript conn) ->
  net.Write conn p = (err, conn') ->
  err = None
  /\ Forall (eq None) (net.writeScript conn')
  /\ net.written conn' = (net.written conn ++ [(p, None)])%list
  /\ net.tlsClient conn' = net.tlsClient conn.
Proof.
  intros Hall. unfold net.Write.
  destruct (net.writeScript conn) as [|o script] eqn:Hscript; intros H; inversion H; subst.
  - simpl. repeat split. constructor.
  - inversion Hall; subst. simpl. repeat split. assumption.
Qed.

Lemma rxAuthenticationX_accepting
    (c : PgConn) (msg : pgproto3.Authentication) (conn : net.Conn) :
  NetConn c = Some conn ->
  Forall (eq None) (net.writeScript conn) ->
  continues (Ok (pgproto3.MsgAuthentication msg)) ->
  exists conn',
    rxAuthenticationX c msg = Done (None, set_NetConn c (Some conn'))
    /\ Forall (eq None) (net.writeScript conn')
    /\ net.tlsClient conn' = net.tlsClient conn.
Proof.
  intros Hconn Hall Hty. simpl in Hty.
  assert (Htx : forall password, exists conn',
             txPasswordMessage c password = Done (None, set_NetConn c (Some conn'))
             /\ Forall (eq None) (net.writeScript conn')
             /\ net.tlsClient conn' = net.tlsClient conn).
  { intros password. unfold txPasswordMessage. rewrite Hconn.
    destruct (net.Write conn (net.Encoded (pgproto3.MsgPassword
                {| pgproto3.Password := password |}))) as [err conn'] eqn:Hw.
    destruct (Write_accepting _ _ _ _ Hall Hw) as (-> & Hall' & _ & Htls).
    exists conn'. auto. }
  unfold rxAuthenticationX.
  destruct Hty as [-> | [-> | ->]]; simpl; [|apply Htx|apply Htx].
  exists conn. destruct c; simpl in *; subst. auto.
Qed.

(** Frames that keep the loop going are consumed one per iteration. *)
Lemma Connect_loop_continues (pre rest : list (result pgproto3.BackendMessage)) :
  forall (fuel : nat) (pgConn : PgConn) (conn : net.Conn) (statuses : gmap string string),
    NetConn pgConn = Some conn ->
    Forall (eq None) (net.writeScript conn) ->
    parameterStatuses pgConn = Some statuses ->
    Frontend pgConn = Some {| pgproto3.script := pre ++ rest |} ->
    Forall continues pre ->
    exists pgConn2 conn2 statuses2,
      Connect_loop (List.length pre + fuel) pgConn = Connect_loop fuel pgConn2
      /\ NetConn pgConn2 = Some conn2
      /\ Forall (eq None) (net.writeScript conn2)
      /\ parameterStatuses pgConn2 = Some statuses2
      /\ Frontend pgConn2 = Some {| pgproto3.script := rest |}
      /\ Config pgConn2 = Config pgConn.
Proof.
  induction pre as [|r pre IH]; intros fuel pgConn conn statuses Hconn Hall Hps Hfe Hpre.
  - exists pgConn, conn, statuses. conjs; auto.
  - inversion Hpre as [|r' pre' Hr Hpre']; subst.
    cbn [List.length Nat.add Connect_loop].
    rewrite (ReceiveMessage_unfold _ _ Hfe). cbn [pgproto3.script app].
    destruct r as [[a|b|q|ps|er|k]|err]; simpl in Hr; try contradiction.
    + (* authentication *)
      cbn zeta.
      destruct (rxAuthenticationX_accepting
                  (set_Frontend pgConn (Some {| pgproto3.script := pre ++ rest |})) a conn
                  Hconn Hall Hr) as (conn' & Hrx & Hall' & _).
      change (mbind ?k (Done ?x)) with (k x). cbv beta iota.
      rewrite Hrx. change (mbind ?k (Done ?x)) with (k x). cbv beta iota.
      destruct (IH fuel (set_NetConn (set_Frontend pgConn
                  (Some {| pgproto3.script := pre ++ rest |})) (Some conn')) conn' statuses)
        as (pgConn2 & conn2 & statuses2 & Hloop & H); auto.
      exists pgConn2, conn2, statuses2. destruct H as (? & ? & ? & ? & ?). conjs; auto.
    + (* backend key data *)
      change (mbind ?k (Done ?x)) with (k x). cbv beta iota zeta.
      destruct (IH fuel (set_SecretKey (set_PID (set_Frontend pgConn
                  (Some {| pgproto3.script := pre ++ rest |})) (pgproto3.ProcessID b))
                  (pgproto3.SecretKey b)) conn statuses)
        as (pgConn2 & conn2 & statuses2 & Hloop & H); auto.
      exists pgConn2, conn2, statuses2. destruct H as (? & ? & ? & ? & ?). conjs; auto.
    + (* parameter status *)
      cbn zeta. cbn [parameterStatuses set_Frontend]. rewrite Hps.
      change (mbind ?k (Done ?x)) with (k x). cbv beta iota zeta.
      destruct (IH fuel (set_parameterStatuses (set_Frontend pgConn
                  (Some {| pgproto3.script := pre ++ rest |}))
                  (Some (<[pgproto3.Name ps := pgproto3.Value ps]> statuses))) conn
                  (<[pgproto3.Name ps := pgproto3.Value ps]> statuses))
        as (pgConn2 & conn2 & statuses2 & Hloop & H); auto.
      exists pgConn2, conn2, statuses2. destruct H as (? & ? & ? & ? & ?). conjs; auto.
Qed.

(** ** Connect up to the loop *)

Lemma assignDefaults_cases (env : Env) (cc : ConnConfig) :
  (exists err, assignDefaults env cc = (Some err, cc)
               /\ User cc = "" /\ user_Current env = Err err)
  \/ (exists cc',
        assignDefaults env cc = (None, cc')
        /\ (User cc' = User cc /\ User cc <> ""
            \/ User cc = "" /\ user_Current env = Ok (User cc'))
        /\ Port cc' = (if Port cc =? 0 then 5432 else Port cc)
        /\ Dial cc' = Some match Dial cc with
                           | Some d => d
                           | None => net_Dialer_Dial env (5 * time_Minute)
                           end
        /\ Host cc' = Host cc /\ Database cc' = Database cc
        /\ Password cc' = Password cc /\ TLSConfig cc' = TLSConfig cc
        /\ RuntimeParams cc' = RuntimeParams cc).
Proof.
  unfold assignDefaults.
  destruct (String.eqb_spec (User cc) "") as [Hu|Hu].
  - destruct (user_Current env) as [username|err] eqn:Hcur.
    + right. eexists. split; [reflexivity|]. simpl.
      conjs; auto. destruct (Dial cc); reflexivity.
    + left. exists err. auto.
  - right. eexists. split; [reflexivity|]. simpl.
    conjs; auto. destruct (Dial cc); reflexivity.
Qed.

Lemma startTLS_log (pgConn pgConn' : PgConn) (tlsConfig : tls.Config)
    (conn : net.Conn) (err : option error) :
  NetConn pgConn = Some conn ->
  startTLS pgConn tlsConfig = Done (err, pgConn') ->
  exists conn' o,
    pgConn' = set_NetConn pgConn (Some conn')
    /\ net.written conn'
       = (net.written conn ++ [(net.Bytes [0; 0; 0; 8; 4; 210; 22; 47], o)])%list
    /\ (err = None ->
        o = None /\ net.tlsClient conn' = Some tlsConfig
        /\ exists rest, net.readScript conn = Ok "S"%char :: rest).
Proof.
  intros Hconn. unfold startTLS, binary.Write, net.Write, net.ReadFull1.
  rewrite Hconn.
  destruct (net.writeScript conn) as [|[e|] script]; simpl.
  - destruct (net.readScript conn) as [|[b|e] rest]; simpl.
    + intros H; inversion H; subst. do 2 eexists. conjs; try reflexivity. discriminate.
    + destruct (Ascii.eqb_spec b "S"%char) as [->|Hne]; simpl;
        intros H; inversion H; subst; do 2 eexists; conjs; try reflexivity;
        try discriminate.
      intros _. conjs; eauto.
    + intros H; inversion H; subst. do 2 eexists. conjs; try reflexivity. discriminate.
  - intros H; inversion H; subst. do 2 eexists. conjs; try reflexivity. discriminate.
  - destruct (net.readScript conn) as [|[b|e] rest]; simpl.
    + intros H; inversion H; subst. do 2 eexists. conjs; try reflexivity. discriminate.
    + destruct (Ascii.eqb_spec b "S"%char) as [->|Hne]; simpl;
        intros H; inversion H; subst; do 2 eexists; conjs; try reflexivity;
        try discriminate.
      intros _. conjs; eauto.
    + intros H; inversion H; subst. do 2 eexists. conjs; try reflexivity. discriminate.
Qed.

Lemma startTLS_returns (pgConn : PgConn) (tlsConfig : tls.Config) (conn : net.Conn) :
  NetConn pgConn = Some conn ->
  exists err pgConn', startTLS pgConn tlsConfig = Done (err, pgConn').
Proof.
  intros Hconn. unfold startTLS. rewrite Hconn.
  destruct (binary.Write conn [8; 80877103]) as [[e|] conn1]; [eauto|].
  destruct (net.ReadFull1 conn1) as [[b|e] conn2]; [|eauto].
  destruct (negb (Ascii.eqb b "S")); eauto.
Qed.

(** Every way [Connect_setup] returns: without a stream when the defaults
    or the dial fail; otherwise with the stream, on which it wrote the TLS
    request (if TLS is configured) and the startup frame (if the codec was
    built), and on success with the handle the loop starts from. *)
Lemma Connect_setup_log (env : Env) (cc : ConnConfig)
    (r : result PgConn) (wire : option net.Conn) :
  Connect_setup env cc = Done (r, wire) ->
  (exists err,
      r = Err err /\ wire = None
      /\ (assignDefaults env cc = (Some err, cc)
          \/ exists cc' dial,
               assignDefaults env cc = (None, cc') /\ Dial cc' = Some dial
               /\ dial (fst (NetworkAddress env cc')) (snd (NetworkAddress env cc')) = Err err))
  \/ (exists cc' dial conn0 conn frames,
        assignDefaults env cc = (None, cc') /\ Dial cc' = Some dial
        /\ dial (fst (NetworkAddress env cc')) (snd (NetworkAddress env cc')) = Ok conn0
        /\ wire = Some conn
        /\ net.written conn = (net.written conn0 ++ frames)%list
        /\ (forall m o,
              In (net.Encoded (pgproto3.MsgStartup m), o) frames -> m = Connect_startupMsg cc')
        /\ match r with
           | Err err => True
           | Ok pgConn =>
               Forall accepted frames
               /\ In (net.Encoded (pgproto3.MsgStartup (Connect_startupMsg cc')), None) frames
               /\ (exists conn1 frontend,
                     pgproto3_NewFrontend env conn1 = Ok frontend
                     /\ pgConn = entering cc' conn frontend)
               /\ (forall tlsConfig,
                     TLSConfig cc' = Some tlsConfig ->
                     net.tlsClient conn = Some tlsConfig
                     /\ exists rest, net.readScript conn0 = Ok "S"%char :: rest)
           end).
Proof.
  unfold Connect_setup.
  destruct (assignDefaults_cases env cc) as [(err & Hdef & _)|(cc' & Hdef & _ & _ & Hdial & _)];
    rewrite Hdef.
  { intros H; inversion H; subst. left. exists err. conjs; auto. }
  rewrite Hdial.
  set (dial := match Dial cc with
               | Some d => d
               | None => net_Dialer_Dial env (5 * time_Minute)
               end) in *.
  destruct (NetworkAddress env cc') as [network address] eqn:Haddr. cbn [fst snd].
  destruct (dial network address) as [conn0|err] eqn:Hopen.
  2:{ intros H; inversion H; subst. left. exists err. conjs; auto.
      right. exists cc', dial. rewrite Haddr. conjs; auto. }
  intros H. right. exists cc', dial, conn0. rewrite Haddr. cbn [fst snd].
  set (pg0 := set_parameterStatuses
                (set_NetConn (set_Config new_PgConn cc') (Some conn0)) (Some ∅)) in *.
  assert (Hstart : forall conn1 pg1 frames1,
             pg1 = set_NetConn pg0 (Some conn1) ->
             net.written conn1 = (net.written conn0 ++ frames1)%list ->
             (forall m o, ~ In (net.Encoded (pgproto3.MsgStartup m), o) frames1) ->
             match NetConn pg1 with
             | None => Panic
             | Some conn =>
                 match pgproto3_NewFrontend env conn with
                 | Err err => Done (Err err, NetConn pg1)
                 | Ok frontend =>
                     let pgConn := set_Frontend pg1 (Some frontend) in
                     let startupMsg := Connect_startupMsg cc' in
                     let '(err, conn) :=
                       net.Write conn (net.Encoded (pgproto3.MsgStartup startupMsg)) in
                     let pgConn := set_NetConn pgConn (Some conn) in
                     match err with
                     | Some err => Done (Err err, NetConn pgConn)
                     | None => Done (Ok pgConn, NetConn pgConn)
                     end
                 end
             end = Done (r, wire) ->
             exists conn frames,
               wire = Some conn
               /\ net.written conn = (net.written conn0 ++ frames)%list
               /\ (forall m o,
                     In (net.Encoded (pgproto3.MsgStartup m), o) frames
                     -> m = Connect_startupMsg cc')
               /\ match r with
                  | Err err => True
                  | Ok pgConn =>
                      (Forall accepted frames1 -> Forall accepted frames)
                      /\ In (net.Encoded (pgproto3.MsgStartup (Connect_startupMsg cc')), None)
                            frames
                      /\ (exists conn1 frontend,
                            pgproto3_NewFrontend env conn1 = Ok frontend
                            /\ pgConn = entering cc' conn frontend)
                      /\ net.tlsClient conn = net.tlsClient conn1
                  end).
  { intros conn1 pg1 frames1 -> Hlog1 Hnone. cbn [NetConn set_NetConn].
    destruct (pgproto3_NewFrontend env conn1) as [frontend|err] eqn:Hfe.
    2:{ intros H'; inversion H'; subst. exists conn1, frames1. conjs; auto.
        intros m o Hin. destruct (Hnone _ _ Hin). }
    cbv zeta. unfold net.Write.
    destruct (net.writeScript conn1) as [|[e|] script]; intros H'; inversion H'; subst;
      eexists; eexists; (split; [reflexivity|]); cbn [net.written net.tlsClient];
      rewrite Hlog1, <- app_assoc; (split; [reflexivity|]).
    - split.
      + intros m o [Hin|[Hin|[]]]%in_app_or; [destruct (Hnone _ _ Hin)|congruence].
      + conjs; auto.
        * intros Hacc. apply Forall_app. split; [exact Hacc|]. repeat constructor.
        * apply in_or_app. right. left. reflexivity.
        * exists conn1, frontend. split; [exact Hfe|reflexivity].
    - split; [|exact I].
      intros m o [Hin|[Hin|[]]]%in_app_or; [destruct (Hnone _ _ Hin)|congruence].
    - split.
      + intros m o [Hin|[Hin|[]]]%in_app_or; [destruct (Hnone _ _ Hin)|congruence].
      + conjs; auto.
        * intros Hacc. apply Forall_app. split; [exact Hacc|]. repeat constructor.
        * apply in_or_app. right. left. reflexivity.
        * exists conn1, frontend. split; [exact Hfe|reflexivity]. }
  destruct (assignDefaults_cases env cc) as [(err & Hdef' & _)|(cc2 & Hdef' & Hrest)];
    rewrite Hdef in Hdef'; inversion Hdef'; subst cc2.
  destruct Hrest as (_ & _ & _ & _ & _ & _ & Htls & _).
  destruct (TLSConfig cc') as [tlsConfig|] eqn:Hcfg.
  - destruct (startTLS pg0 tlsConfig) as [[err pg1]| |] eqn:Hrun; try discriminate H.
    destruct (startTLS_log pg0 pg1 tlsConfig conn0 err eq_refl Hrun)
      as (conn1 & o & -> & Hlog1 & Hok).
    change (mbind ?k (Done ?x)) with (k x) in H. cbv beta iota in H.
    destruct err as [err|].
    + inversion H; subst. exists conn1. eexists. conjs; eauto.
      intros m o' [Hin|[]]. discriminate.
    + destruct (Hok eq_refl) as (-> & Hwrapped & rest & Hread).
      destruct (Hstart conn1 _ _ eq_refl Hlog1) with (2 := H)
        as (conn & frames & -> & Hlog & Hstartup & Hr).
      { intros m o' [Hin|[]]. discriminate. }
      exists conn, frames. conjs; auto.
      destruct r as [pgConn|err]; [|exact I].
      destruct Hr as (Hacc & Hin & Hfe & Hsame).
      conjs; auto.
      * apply Hacc. repeat constructor.
      * intros tlsConfig' Heq. inversion Heq; subst. split; [congruence|eauto].
  - change (mbind ?k (Done ?x)) with (k x) in H. cbv beta iota in H.
    destruct (Hstart conn0 pg0 [] eq_refl) with (3 := H)
      as (conn & frames & -> & Hlog & Hstartup & Hr).
    { by rewrite app_nil_r. }
    { intros m o []. }
    exists conn, frames. conjs; auto.
    destruct r as [pgConn|err]; [|exact I].
    destruct Hr as (Hacc & Hin & Hfe & Hsame).
    conjs; auto. intros tlsConfig' Heq. discriminate.
Qed.

Lemma Connect_setup_returns (env : Env) (cc : ConnConfig) :
  exists r wire, Connect_setup env cc = Done (r, wire).
Proof.
  unfold Connect_setup.
  destruct (assignDefaults_cases env cc) as [(err & Hdef & _)|(cc' & Hdef & _ & _ & Hdial & _)];
    rewrite Hdef; [eauto|].
  rewrite Hdial.
  destruct (NetworkAddress env cc') as [network address].
  match goal with |- context [match ?d network address with _ => _ end] =>
    destruct (d network address) as [conn0|err]; [|eauto] end.
  set (pg0 := set_parameterStatuses
                (set_NetConn (set_Config new_PgConn cc') (Some conn0)) (Some ∅)).
  assert (Hstep : exists err pg1 conn1,
             match TLSConfig cc' with
             | Some tlsConfig => startTLS pg0 tlsConfig
             | None => Done (None, pg0)
             end = Done (err, pg1) /\ (err = None -> NetConn pg1 = Some conn1)).
  { destruct (TLSConfig cc') as [tlsConfig|].
    - destruct (startTLS_returns pg0 tlsConfig conn0 eq_refl) as (err & pg1 & Hrun).
      destruct (startTLS_log pg0 pg1 tlsConfig conn0 err eq_refl Hrun)
        as (conn1 & o & -> & _).
      exists err, (set_NetConn pg0 (Some conn1)), conn1. auto.
    - exists None, pg0, conn0. auto. }
  destruct Hstep as (err & pg1 & conn1 & -> & Hconn1).
  change (mbind ?k (Done ?x)) with (k x). cbv beta iota.
  destruct err as [err|]; [eauto|].
  rewrite (Hconn1 eq_refl).
  destruct (pgproto3_NewFrontend env conn1) as [frontend|err]; [|eauto].
  cbv zeta.
  destruct (net.Write conn1 _) as [[err|] conn2]; eauto.
Qed.

Lemma set_NetConn_same (c : PgConn) (conn : net.Conn) :
  NetConn c = Some conn -> set_NetConn c (Some conn) = c.
Proof. destruct c; simpl; intros ->; reflexivity. Qed.

Lemma rxAuthenticationX_log
    (c c' : PgConn) (msg : pgproto3.Authentication) (conn : net.Conn) (err : option error) :
  NetConn c = Some conn ->
  rxAuthenticationX c msg = Done (err, c') ->
  exists conn' frames,
    c' = set_NetConn c (Some conn')
    /\ net.written conn' = (net.written conn ++ frames)%list
    /\ Forall is_password_frame frames
    /\ net.tlsClient conn' = net.tlsClient conn
    /\ (err = None ->
        Forall accepted frames /\ continues (Ok (pgproto3.MsgAuthentication msg))).
Proof.
  intros Hconn.
  assert (Htx : forall password,
             txPasswordMessage c password = Done (err, c') ->
             exists conn' frames,
               c' = set_NetConn c (Some conn')
               /\ net.written conn' = (net.written conn ++ frames)%list
               /\ Forall is_password_frame frames
               /\ net.tlsClient conn' = net.tlsClient conn
               /\ (err = None -> Forall accepted frames)).
  { intros password Hrun.
    destruct (txPasswordMessage_writes_one c conn password Hconn)
      as (err2 & conn' & Hrun2 & Hlog & Htls & _).
    rewrite Hrun2 in Hrun. inversion Hrun; subst.
    exists conn'. eexists. conjs; eauto; try (intros ->); repeat constructor. }
  unfold rxAuthenticationX, continues.
  destruct (Z.eqb_spec (pgproto3.Type' msg) pgproto3.AuthTypeOk) as [H0|H0].
  { intros H; inversion H; subst. exists conn, []. rewrite app_nil_r.
    conjs; auto. symmetry. by apply set_NetConn_same. }
  destruct (Z.eqb_spec (pgproto3.Type' msg) pgproto3.AuthTypeCleartextPassword) as [H3|H3].
  { intros H. destruct (Htx _ H) as (conn' & frames & ? & ? & ? & ? & ?).
    exists conn', frames. conjs; auto. }
  destruct (Z.eqb_spec (pgproto3.Type' msg) pgproto3.AuthTypeMD5Password) as [H5|H5].
  { intros H. destruct (Htx _ H) as (conn' & frames & ? & ? & ? & ? & ?).
    exists conn', frames. conjs; auto. }
  intros H; inversion H; subst. exists conn, []. rewrite app_nil_r.
  conjs; auto; try discriminate. symmetry. by apply set_NetConn_same.
Qed.


(** What the loop leaves behind when it returns: the frames it wrote are
    password responses; it returns a handle only after a ready-for-query
    frame that came after frames that keep the loop going, with every write
    accepted, and otherwise an error. *)
Lemma Connect_loop_log (fuel : nat) :
  forall (pgConn : PgConn) (conn : net.Conn) (frontend : pgproto3.Frontend)
         (h : option PgConn) (e : option error) (w : option net.Conn),
    NetConn pgConn = Some conn ->
    Frontend pgConn = Some frontend ->
    Connect_loop fuel pgConn = Done (h, e, w) ->
    exists wire frames,
      w = Some wire
      /\ net.written wire = (net.written conn ++ frames)%list
      /\ Forall is_password_frame frames
      /\ net.tlsClient wire = net.tlsClient conn
      /\ match h with
         | None => exists err, e = Some err
         | Some handle =>
             e = None /\ NetConn handle = Some wire /\ Forall accepted frames
             /\ Config handle = Config pgConn
             /\ (is_Some (parameterStatuses pgConn) -> is_Some (parameterStatuses handle))
             /\ exists pre m rest,
                  pgproto3.script frontend = (pre ++ Ok (pgproto3.MsgReadyForQuery m) :: rest)%list
                  /\ Forall continues pre
                  /\ Frontend handle = Some {| pgproto3.script := rest |}
                  /\ TxStatus handle = pgproto3.TxStatus m
         end.
Proof.
  induction fuel as [|fuel IH]; intros pgConn conn frontend h e w Hconn Hfe; [discriminate|].
  cbn [Connect_loop]. rewrite (ReceiveMessage_unfold _ _ Hfe).
  assert (Hstop : forall err : error, exists wire frames,
             Some conn = Some wire
             /\ net.written wire = (net.written conn ++ frames)%list
             /\ Forall is_password_frame frames
             /\ net.tlsClient wire = net.tlsClient conn
             /\ exists err', Some err = Some err').
  { intros err. exists conn, []. rewrite app_nil_r. conjs; eauto. }
  destruct (pgproto3.script frontend) as [|[[a|b|q|ps|er|k]|err] script] eqn:Hscript;
    cbv zeta; try (change (mbind ?k (Done ?x)) with (k x); cbv beta iota zeta).
  - intros H; inversion H; subst. cbn [NetConn set_Frontend]. rewrite Hconn. apply Hstop.
  - (* authentication *)
    destruct (rxAuthenticationX (set_Frontend pgConn (Some {| pgproto3.script := script |})) a)
      as [[err c']| |] eqn:Hrx; try discriminate.
    change (mbind ?k (Done ?x)) with (k x). cbv beta iota.
    destruct (rxAuthenticationX_log
                (set_Frontend pgConn (Some {| pgproto3.script := script |}))
                _ _ conn _ Hconn Hrx)
      as (conn' & frames1 & -> & Hlog1 & Hpw1 & Htls1 & Hok).
    destruct err as [err|].
    + intros H; inversion H; subst. exists conn', frames1. conjs; eauto.
    + intros H. destruct (Hok eq_refl) as [Hacc1 Hcont].
      eapply IH with (conn := conn') in H; [|reflexivity..].
      destruct H as (wire & frames & -> & Hlog & Hpw & Htls & Hh).
      exists wire, (frames1 ++ frames)%list. rewrite Hlog, Hlog1, <- app_assoc.
      conjs; auto.
      * apply Forall_app. auto.
      * congruence.
      * destruct h as [handle|]; [|exact Hh].
        destruct Hh as (-> & Hnc & Hacc & Hcfg & Hmap & pre & m & rest & Hs & Hpre & Hfr & Htx).
        conjs; auto.
        -- apply Forall_app. auto.
        -- exists (Ok (pgproto3.MsgAuthentication a) :: pre), m, rest.
           cbn [pgproto3.script] in Hs. rewrite Hs. conjs; auto.
  - (* backend key data *)
    intros H.
    eapply IH with (conn := conn) in H; [|first [exact Hconn|reflexivity]..].
    destruct H as (wire & frames & -> & Hlog & Hpw & Htls & Hh).
    exists wire, frames. conjs; auto.
    destruct h as [handle|]; [|exact Hh].
    destruct Hh as (-> & Hnc & Hacc & Hcfg & Hmap & pre & m & rest & Hs & Hpre & Hfr & Htx).
    conjs; auto.
    exists (Ok (pgproto3.MsgBackendKeyData b) :: pre), m, rest.
    cbn [pgproto3.script] in Hs. rewrite Hs. conjs; auto. constructor; [exact I|auto].
  - (* ready for query *)
    intros H; inversion H; subst. cbn [NetConn set_TxStatus set_Frontend].
    exists conn, []. rewrite app_nil_r. conjs; auto.
    exists [], q, script. conjs; auto.
  - (* parameter status *)
    cbn [parameterStatuses set_Frontend].
    destruct (parameterStatuses pgConn) as [statuses|]; [|discriminate].
    change (mbind ?k (Done ?x)) with (k x). cbv beta iota zeta.
    intros H.
    eapply IH with (conn := conn) in H; [|first [exact Hconn|reflexivity]..].
    destruct H as (wire & frames & -> & Hlog & Hpw & Htls & Hh).
    exists wire, frames. conjs; auto.
    destruct h as [handle|]; [|exact Hh].
    destruct Hh as (-> & Hnc & Hacc & Hcfg & Hmap & pre & m & rest & Hs & Hpre & Hfr & Htx).
    conjs; auto.
    exists (Ok (pgproto3.MsgParameterStatus ps) :: pre), m, rest.
    cbn [pgproto3.script] in Hs. rewrite Hs. conjs; auto. constructor; [exact I|auto].
  - (* error response *)
    intros H; inversion H; subst. cbn [NetConn set_Frontend]. rewrite Hconn. apply Hstop.
  - (* any other message *)
    intros H; inversion H; subst. cbn [NetConn set_Frontend]. rewrite Hconn. apply Hstop.
  - (* the receive failed *)
    intros H; inversion H; subst. cbn [NetConn set_Frontend]. rewrite Hconn. apply Hstop.
Qed.


(** ** Connect *)

(** C1: when [Connect] has reached its loop and the codec gives
    authentication-ok, backend-key-data and ready-for-query in turn,
    [Connect] returns a handle and no error, and the handle carries the
    process id and the secret key of the backend-key-data frame. *)
Theorem Connect_startup_sequence
    (fuel : nat) (env : Env) (cc : ConnConfig) (pgConn : PgConn) (wire : option net.Conn)
    (salt : ascii * ascii * ascii * ascii)
    (keyData : pgproto3.BackendKeyData) (ready : pgproto3.ReadyForQuery)
    (rest : list (result pgproto3.BackendMessage)) :
  Connect_setup env cc = Done (Ok pgConn, wire) ->
  Frontend pgConn
  = Some {| pgproto3.script :=
              Ok (pgproto3.MsgAuthentication
                    {| pgproto3.Type' := pgproto3.AuthTypeOk; pgproto3.Salt := salt |})
              :: Ok (pgproto3.MsgBackendKeyData keyData)
              :: Ok (pgproto3.MsgReadyForQuery ready) :: rest |} ->
  (3 <= fuel)%nat ->
  exists handle,
    Connect fuel env cc = Done (Some handle, None, wire)
    /\ PID handle = pgproto3.ProcessID keyData
    /\ SecretKey handle = pgproto3.SecretKey keyData
    /\ TxStatus handle = pgproto3.TxStatus ready
    /\ NetConn handle = wire
    /\ Config handle = Config pgConn
    /\ Frontend handle = Some {| pgproto3.script := rest |}.
Proof.
  intros Hsetup Hfe Hfuel.
  assert (Hwire : NetConn pgConn = wire).
  { destruct (Connect_setup_log env cc _ _ Hsetup)
      as [(err & Herr & _)|(cc' & dial & conn0 & conn & frames & _ & _ & _ & -> & _ & _ & Hr)];
      [discriminate|].
    destruct Hr as (_ & _ & (conn1 & frontend & _ & ->) & _). reflexivity. }
  unfold Connect. rewrite Hsetup.
  change (mbind ?k (Done ?x)) with (k x). cbv beta iota.
  destruct fuel as [|[|[|fuel]]]; try lia.
  cbn [Connect_loop]. rewrite (ReceiveMessage_unfold pgConn _ Hfe). cbn.
  eexists. split; [cbn; rewrite Hwire; reflexivity|].
  cbn. conjs; auto.
Qed.

Lemma Connect_startup_sequence_witness :
  exists handle,
    Connect 3 (Sample.env Sample.greeting) Sample.cc
    = Done (Some handle, None, NetConn (Sample.entered Sample.greeting))
    /\ PID handle = 4242
    /\ SecretKey handle = 99
    /\ TxStatus handle = "I"%char.
Proof.
  destruct (Connect_startup_sequence 3 (Sample.env Sample.greeting) Sample.cc
              (Sample.entered Sample.greeting) (NetConn (Sample.entered Sample.greeting))
              Sample.salt Sample.keyData Sample.idle []
              eq_refl eq_refl (le_n 3))
    as (handle & Hrun & Hpid & Hkey & Htx & _).
  exists handle. auto.
Defined.


(** C9: when [Connect] has reached its loop and an error-response frame
    comes first or after frames that keep the loop going (on a transport
    that accepts the writes), [Connect] returns no handle and a [PgError]
    whose seventeen fields are those of the frame; and so does the loop in
    whatever state it receives such a frame. *)
Theorem Connect_error_response
    (fuel : nat) (env : Env) (cc : ConnConfig) (pgConn : PgConn) (conn : net.Conn)
    (pre rest : list (result pgproto3.BackendMessage)) (msg : pgproto3.ErrorResponse) :
  Connect_setup env cc = Done (Ok pgConn, Some conn) ->
  Frontend pgConn
  = Some {| pgproto3.script := pre ++ Ok (pgproto3.MsgErrorResponse msg) :: rest |} ->
  Forall continues pre ->
  Forall (eq None) (net.writeScript conn) ->
  (List.length pre < fuel)%nat ->
  exists pe w,
    Connect fuel env cc = Done (None, Some (PgError_error pe), w)
    /\ (forall n state state',
          ReceiveMessage state = Done (Ok (pgproto3.MsgErrorResponse msg), state') ->
          Connect_loop (Datatypes.S n) state
          = Done (None, Some (PgError_error pe), NetConn state'))
    /\ Severity pe = pgproto3.Severity msg
    /\ Code pe = pgproto3.Code msg
    /\ Message pe = pgproto3.Message msg
    /\ Detail pe = pgproto3.Detail msg
    /\ Hint pe = pgproto3.Hint msg
    /\ Position pe = pgproto3.Position msg
    /\ InternalPosition pe = pgproto3.InternalPosition msg
    /\ InternalQuery pe = pgproto3.InternalQuery msg
    /\ Where pe = pgproto3.Where msg
    /\ SchemaName pe = pgproto3.SchemaName msg
    /\ TableName pe = pgproto3.TableName msg
    /\ ColumnName pe = pgproto3.ColumnName msg
    /\ DataTypeName pe = pgproto3.DataTypeName msg
    /\ ConstraintName pe = pgproto3.ConstraintName msg
    /\ File pe = pgproto3.File msg
    /\ Line pe = pgproto3.Line msg
    /\ Routine pe = pgproto3.Routine msg.
Proof.
  intros Hsetup Hfe Hpre Hall Hfuel.
  assert (Hany : forall n state state',
             ReceiveMessage state = Done (Ok (pgproto3.MsgErrorResponse msg), state') ->
             Connect_loop (Datatypes.S n) state
             = Done (None, Some (PgError_error (PgError_of msg)), NetConn state')).
  { intros n state state' Hrecv. cbn [Connect_loop]. rewrite Hrecv. reflexivity. }
  destruct (Connect_setup_log env cc _ _ Hsetup)
    as [(err & Herr & _)|(cc' & dial & conn0 & conn' & frames & _ & _ & _ & Hw & _ & _ & Hr)];
    [discriminate|].
  inversion Hw; subst conn'.
  destruct Hr as (_ & _ & (conn1 & frontend & _ & ->) & _).
  cbn [Frontend entering] in Hfe.
  replace fuel with (List.length pre + Datatypes.S (fuel - Datatypes.S (List.length pre)))%nat
    by lia.
  unfold Connect. rewrite Hsetup.
  change (mbind ?k (Done ?x)) with (k x). cbv beta iota.
  destruct (Connect_loop_continues pre (Ok (pgproto3.MsgErrorResponse msg) :: rest)
              (Datatypes.S (fuel - Datatypes.S (List.length pre)))
              (entering cc' conn frontend) conn ∅ eq_refl Hall eq_refl Hfe Hpre)
    as (pgConn2 & conn2 & statuses2 & Hloop & Hconn2 & _ & _ & Hfe2 & _).
  rewrite Hloop.
  exists (PgError_of msg). eexists. split.
  { apply Hany. rewrite (ReceiveMessage_unfold _ _ Hfe2). reflexivity. }
  split; [exact Hany|]. repeat split.
Qed.

Lemma Connect_error_response_witness :
  exists pe w,
    Connect 2 (Sample.env Sample.rejection) Sample.cc = Done (None, Some (PgError_error pe), w)
    /\ Severity pe = "FATAL" /\ Code pe = "28P01"
    /\ Message pe = "password authentication failed" /\ Line pe = 285.
Proof.
  destruct (Connect_error_response 2 (Sample.env Sample.rejection) Sample.cc
              (Sample.entered Sample.rejection)
              (snd (net.Write Sample.stream
                      (net.Encoded (pgproto3.MsgStartup
                         (Connect_startupMsg
                            (snd (assignDefaults (Sample.env Sample.rejection) Sample.cc)))))))
              [Ok (pgproto3.MsgParameterStatus Sample.server_version)] [] Sample.failure
              eq_refl eq_refl
              ltac:(constructor; [exact I|constructor]) ltac:(constructor) (le_n 2))
    as (pe & w & Hrun & _ & Hsev & Hcode & Hmsg & H).
  exists pe, w. conjs; auto. apply H.
Defined.



(** ** The startup frame *)

(** Copying the run-time parameters one by one gives the same mapping. *)
Lemma copy_RuntimeParams (params : gmap string string) :
  map_fold (fun k v (acc : gmap string string) => <[k := v]> acc) ∅ params = params.
Proof.
  apply (map_fold_weak_ind (fun (acc params : gmap string string) => acc = params)).
  - reflexivity.
  - intros k v m acc _ ->. reflexivity.
Qed.

Lemma Connect_startupMsg_Parameters (cc : ConnConfig) :
  pgproto3.ProtocolVersion (Connect_startupMsg cc) = pgproto3.ProtocolVersionNumber
  /\ pgproto3.Parameters (Connect_startupMsg cc)
     = (if String.eqb (Database cc) "" then <["user" := User cc]> (RuntimeParams cc)
        else <["database" := Database cc]> (<["user" := User cc]> (RuntimeParams cc)))
  /\ pgproto3.Parameters (Connect_startupMsg cc) !! "user" = Some (User cc)
  /\ pgproto3.Parameters (Connect_startupMsg cc) !! "database"
     = (if String.eqb (Database cc) "" then RuntimeParams cc !! "database"
        else Some (Database cc))
  /\ (forall k, k <> "user" -> k <> "database" ->
        pgproto3.Parameters (Connect_startupMsg cc) !! k = RuntimeParams cc !! k).
Proof.
  unfold Connect_startupMsg. cbn [pgproto3.ProtocolVersion pgproto3.Parameters].
  rewrite copy_RuntimeParams.
  destruct (String.eqb (Database cc) ""); cbn [negb]; conjs; try reflexivity.
  - by rewrite lookup_insert_eq.
  - by rewrite lookup_insert_ne.
  - intros k Hu Hd. by rewrite lookup_insert_ne.
  - rewrite lookup_insert_ne by done. by rewrite lookup_insert_eq.
  - by rewrite lookup_insert_eq.
  - intros k Hu Hd. by rewrite !lookup_insert_ne.
Qed.

(** C4: every startup frame [Connect] writes on the stream it opened carries
    the protocol version and, as parameters, the configured run-time
    defaults overridden by [user] (the configured user, or the current user
    of the system when none is configured) and, exactly when the configured
    database is not empty, by [database]; when [Connect] returns a handle,
    such a frame was written and accepted. *)
Theorem Connect_startup_parameters
    (fuel : nat) (env : Env) (cc : ConnConfig)
    (h : option PgConn) (e : option error) (wire : net.Conn) :
  Connect fuel env cc = Done (h, e, Some wire) ->
  exists cc' dial conn0 frames,
    assignDefaults env cc = (None, cc')
    /\ Dial cc' = Some dial
    /\ dial (fst (NetworkAddress env cc')) (snd (NetworkAddress env cc')) = Ok conn0
    /\ net.written wire = (net.written conn0 ++ frames)%list
    /\ RuntimeParams cc' = RuntimeParams cc
    /\ Database cc' = Database cc
    /\ (User cc' = User cc /\ User cc <> ""
        \/ User cc = "" /\ user_Current env = Ok (User cc'))
    /\ (forall handle, h = Some handle ->
          exists m, In (net.Encoded (pgproto3.MsgStartup m), None) frames)
    /\ (forall m o,
          In (net.Encoded (pgproto3.MsgStartup m), o) frames ->
          pgproto3.ProtocolVersion m = pgproto3.ProtocolVersionNumber
          /\ pgproto3.Parameters m
             = (if String.eqb (Database cc') "" then <["user" := User cc']> (RuntimeParams cc')
                else <["database" := Database cc']>
                       (<["user" := User cc']> (RuntimeParams cc')))
          /\ pgproto3.Parameters m !! "user" = Some (User cc')
          /\ pgproto3.Parameters m !! "database"
             = (if String.eqb (Database cc') "" then RuntimeParams cc' !! "database"
                else Some (Database cc'))
          /\ (forall k, k <> "user" -> k <> "database" ->
                pgproto3.Parameters m !! k = RuntimeParams cc' !! k)).
Proof.
  unfold Connect.
  destruct (Connect_setup_returns env cc) as (r & wire0 & Hsetup). rewrite Hsetup.
  change (mbind ?k (Done ?x)) with (k x). cbv beta iota.
  pose proof (Connect_setup_log env cc r wire0 Hsetup) as Hlog.
  intros Hrun.
  assert (Hopened : exists cc' dial conn0 conn frames,
             assignDefaults env cc = (None, cc') /\ Dial cc' = Some dial
             /\ dial (fst (NetworkAddress env cc')) (snd (NetworkAddress env cc')) = Ok conn0
             /\ wire0 = Some conn
             /\ net.written conn = (net.written conn0 ++ frames)%list
             /\ (forall m o,
                   In (net.Encoded (pgproto3.MsgStartup m), o) frames
                   -> m = Connect_startupMsg cc')
             /\ match r with
                | Err err => wire = conn /\ h = None
                | Ok pgConn =>
                    In (net.Encoded (pgproto3.MsgStartup (Connect_startupMsg cc')), None) frames
                    /\ exists frontend, pgConn = entering cc' conn frontend
                end).
  { destruct Hlog as [(err & -> & -> & _)|(cc' & dial & conn0 & conn & frames & Hdef & Hdial
                                           & Hopen & -> & Hwritten & Hstartup & Hr)].
    { inversion Hrun. }
    exists cc', dial, conn0, conn, frames. conjs; auto.
    destruct r as [pgConn|err].
    - destruct Hr as (_ & Hin & (conn1 & frontend & _ & ->) & _). eauto.
    - inversion Hrun; subst. auto. }
  destruct Hopened as (cc' & dial & conn0 & conn & frames & Hdef & Hdial & Hopen & ->
                       & Hwritten & Hstartup & Hr).
  assert (Hfields : RuntimeParams cc' = RuntimeParams cc /\ Database cc' = Database cc
                    /\ (User cc' = User cc /\ User cc <> ""
                        \/ User cc = "" /\ user_Current env = Ok (User cc'))).
  { destruct (assignDefaults_cases env cc)
      as [(err & Hdef' & _)|(cc2 & Hdef' & Huser & _ & _ & _ & Hdb & _ & _ & Hrp)];
      rewrite Hdef in Hdef'; inversion Hdef'; subst. auto. }
  destruct Hfields as (Hrp & Hdb & Huser).
  assert (Hframes : exists frames2,
             net.written wire = (net.written conn0 ++ frames ++ frames2)%list
             /\ Forall is_password_frame frames2
             /\ (forall handle, h = Some handle ->
                   In (net.Encoded (pgproto3.MsgStartup (Connect_startupMsg cc')), None) frames)).
  { destruct r as [pgConn|err].
    - destruct Hr as (Hin & frontend & ->).
      destruct (Connect_loop_log fuel (entering cc' conn frontend) conn frontend h e _
                  eq_refl eq_refl Hrun)
        as (wire' & frames2 & Hw & Hwritten2 & Hpw & _).
      inversion Hw; subst wire'.
      exists frames2. rewrite Hwritten2, Hwritten, <- app_assoc. auto.
    - destruct Hr as [-> ->]. exists []. rewrite app_nil_r.
      conjs; auto. discriminate. }
  destruct Hframes as (frames2 & Hwritten2 & Hpw & Hsent).
  exists cc', dial, conn0, (frames ++ frames2)%list. conjs; auto.
  - intros handle Hh. exists (Connect_startupMsg cc').
    apply in_or_app. left. eauto.
  - intros m o [Hin|Hin]%in_app_or.
    + rewrite (Hstartup m o Hin). apply Connect_startupMsg_Parameters.
    + rewrite List.Forall_forall in Hpw. destruct (Hpw _ Hin).
Qed.

Lemma Connect_startup_parameters_witness :
  exists m,
    In (net.Encoded (pgproto3.MsgStartup m), None)
       (net.written (Sample.wire_of (Connect 3 (Sample.env Sample.greeting) Sample.cc)))
    /\ pgproto3.Parameters m !! "user" = Some "alice"
    /\ pgproto3.Parameters m !! "database" = Some "orders"
    /\ pgproto3.Parameters m !! "application_name" = Some "psql".
Proof.
  assert (Hrun : Connect 3 (Sample.env Sample.greeting) Sample.cc
                 = Done (Sample.handle_of (Connect 3 (Sample.env Sample.greeting) Sample.cc),
                         Sample.error_of (Connect 3 (Sample.env Sample.greeting) Sample.cc),
                         Some (Sample.wire_of
                                 (Connect 3 (Sample.env Sample.greeting) Sample.cc))))
    by (vm_compute; reflexivity).
  assert (Hh : exists handle,
             Sample.handle_of (Connect 3 (Sample.env Sample.greeting) Sample.cc)
             = Some handle) by (vm_compute; eauto).
  destruct Hh as [handle Hh].
  destruct (Connect_startup_parameters 3 (Sample.env Sample.greeting) Sample.cc _ _ _ Hrun)
    as (cc' & dial & conn0 & frames & Hdef & Hdial & Hopen & Hwritten & Hrp & Hdb & Huser
        & Hsent & Hparams).
  destruct (Hsent _ Hh) as [m Hin].
  destruct (Hparams m None Hin) as (_ & _ & Hu & Hd & Hother).
  exists m. rewrite Hwritten. conjs.
  - apply in_or_app. right. exact Hin.
  - rewrite Hu. destruct Huser as [[_ Hne]|[_ Hcur]]; [by destruct Hne|].
    inversion Hcur. reflexivity.
  - rewrite Hd, Hdb. reflexivity.
  - rewrite Hother, Hrp by discriminate. reflexivity.
Defined.

(** ** NetworkAddress *)

(** [filepath.Clean] and [filepath.Join] on cases of Go's own test table. *)
Example Clean_table :
  List.map filepath.Clean
    [ ""; "abc"; "abc/def"; "a/b/c"; "."; ".."; "../.."; "../../abc"; "/abc"; "/";
      "abc/"; "abc/def/"; "a/b/c/"; "./"; "../"; "../../"; "/abc/";
      "abc//def//ghi"; "//abc"; "///abc"; "//abc//"; "abc//";
      "abc/./def"; "/./abc/def"; "abc/.";
      "abc/def/ghi/../jkl"; "abc/def/../ghi/../jkl"; "abc/def/.."; "abc/def/../..";
      "/abc/def/../.."; "abc/def/../../.."; "/abc/def/../../.."; "abc/def/../../../ghi/jkl/../../../mno";
      "/../abc";
      "abc/./../def"; "abc//./../def"; "abc/../../././../def" ]
  = [ "."; "abc"; "abc/def"; "a/b/c"; "."; ".."; "../.."; "../../abc"; "/abc"; "/";
      "abc"; "abc/def"; "a/b/c"; "."; ".."; "../.."; "/abc";
      "abc/def/ghi"; "/abc"; "/abc"; "/abc"; "abc";
      "abc/def"; "/abc/def"; "abc";
      "abc/def/jkl"; "abc/jkl"; "abc"; ".";
      "/"; ".."; "/"; "../../mno";
      "/abc";
      "def"; "def"; "../../def" ].
Proof. vm_compute. reflexivity. Qed.

Example Join_table :
  List.map filepath.Join
    [ []; [""]; ["a"]; ["a"; "b"]; ["a"; ""]; [""; "b"]; ["/"; "a"]; ["/"; ""];
      ["a/"; "b"]; ["a/"; ""]; [""; ""] ]
  = [ ""; ""; "a"; "a/b"; "a"; "b"; "/a"; "/"; "a/b"; "a"; "" ].
Proof. vm_compute. reflexivity. Qed.

Example FormatInt_decimal :
  List.map strconv.FormatInt [0; 7; 5432; 65535] = ["0"; "7"; "5432"; "65535"].
Proof. vm_compute. reflexivity. Qed.

Lemma append_cons (c : ascii) (s t : string) : String c s ++ t = String c (s ++ t).
Proof. reflexivity. Qed.

Lemma append_assoc (a b c : string) : (a ++ b) ++ c = a ++ (b ++ c).
Proof.
  induction a as [|x a IH]; [reflexivity|].
  rewrite !append_cons. by rewrite IH.
Qed.

Lemma SplitSlash_not_nil (s : string) : strings.SplitSlash s <> [].
Proof.
  destruct s as [|c s]; simpl; [discriminate|].
  destruct (Ascii.eqb c "/"); [discriminate|].
  destruct (strings.SplitSlash s); discriminate.
Qed.

Lemma SplitSlash_element (e s : string) :
  no_slash e = true ->
  strings.SplitSlash (e ++ String "/" s) = e :: strings.SplitSlash s.
Proof.
  induction e as [|c e IH]; intros Hns; [reflexivity|].
  simpl in Hns. apply andb_prop in Hns as [Hc Hns].
  rewrite append_cons. cbn [strings.SplitSlash].
  apply negb_true_iff in Hc. rewrite Hc, (IH Hns). reflexivity.
Qed.

Lemma SplitSlash_last (e : string) : no_slash e = true -> strings.SplitSlash e = [e].
Proof.
  induction e as [|c e IH]; intros Hns; [reflexivity|].
  simpl in Hns. apply andb_prop in Hns as [Hc Hns].
  cbn [strings.SplitSlash]. apply negb_true_iff in Hc. rewrite Hc, (IH Hns). reflexivity.
Qed.

Lemma plain_element_no_slash (e : string) : plain_element e = true -> no_slash e = true.
Proof.
  unfold plain_element. intros H.
  repeat (apply andb_prop in H as [H ?]). exact H.
Qed.

Lemma Join_cons (e e' : string) (elems : list string) :
  strings.Join (e :: e' :: elems) "/" = e ++ String "/" (strings.Join (e' :: elems) "/").
Proof. reflexivity. Qed.

Lemma SplitSlash_Join (elems : list string) :
  elems <> [] ->
  List.forallb plain_element elems = true ->
  strings.SplitSlash (strings.Join elems "/") = elems.
Proof.
  induction elems as [|e elems IH]; intros Hne Hall; [contradiction|].
  cbn [List.forallb] in Hall. apply andb_prop in Hall as [He Hall].
  apply plain_element_no_slash in He.
  destruct elems as [|e' elems].
  - apply SplitSlash_last, He.
  - rewrite Join_cons, (SplitSlash_element _ _ He), IH; [reflexivity|discriminate|exact Hall].
Qed.

Lemma push_plain (rooted : bool) (kept : list string) (e : string) :
  plain_element e = true -> filepath.push rooted kept e = e :: kept.
Proof.
  unfold plain_element, filepath.push. intros H.
  repeat (apply andb_prop in H as [H ?]).
  repeat match goal with
         | Hn : negb ?b = true |- _ => apply negb_true_iff in Hn; rewrite Hn
         end.
  reflexivity.
Qed.

Lemma fold_push_plain (rooted : bool) (elems kept : list string) :
  List.forallb plain_element elems = true ->
  List.fold_left (filepath.push rooted) elems kept = (List.rev elems ++ kept)%list.
Proof.
  revert kept. induction elems as [|e elems IH]; intros kept Hall; [reflexivity|].
  cbn [List.forallb] in Hall. apply andb_prop in Hall as [He Hall].
  cbn [List.fold_left List.rev]. rewrite (push_plain _ _ _ He), (IH _ Hall).
  by rewrite <- app_assoc.
Qed.

Lemma Join_plain_first (e : string) (elems : list string) :
  plain_element e = true ->
  exists c rest, strings.Join (e :: elems) "/" = String c rest /\ Ascii.eqb c "/" = false.
Proof.
  intros He. unfold plain_element in He.
  repeat (apply andb_prop in He as [He ?]).
  destruct e as [|c e]; [discriminate|].
  simpl in He. apply andb_prop in He as [Hc _]. apply negb_true_iff in Hc.
  destruct elems as [|e' elems].
  - exists c, e. auto.
  - rewrite Join_cons, append_cons. eauto.
Qed.

(** [filepath.Clean] leaves a clean path as it is. *)
Lemma Clean_clean_path (rooted : bool) (elems : list string) :
  elems <> [] ->
  List.forallb plain_element elems = true ->
  filepath.Clean (clean_path rooted elems) = clean_path rooted elems.
Proof.
  intros Hne Hall.
  destruct elems as [|e elems]; [contradiction|].
  assert (He : plain_element e = true).
  { cbn [List.forallb] in Hall. by apply andb_prop in Hall as [He _]. }
  destruct (Join_plain_first e elems He) as (c & rest & Hjoin & Hc).
  pose proof (SplitSlash_Join (e :: elems) Hne Hall) as Hsplit.
  assert (Hnonempty : String.eqb (clean_path rooted (e :: elems)) "" = false).
  { unfold clean_path. destruct rooted; [reflexivity|].
    change ("" ++ ?s) with s. rewrite Hjoin. reflexivity. }
  assert (Hrooted : String.prefix "/" (clean_path rooted (e :: elems)) = rooted).
  { unfold clean_path. destruct rooted.
    - change ("/" ++ ?s) with (String "/" s). rewrite Hjoin. cbn [String.prefix].
      destruct (ascii_dec "/" "/") as [_|Hx]; [reflexivity|contradiction].
    - change ("" ++ ?s) with s. rewrite Hjoin. cbn [String.prefix].
      destruct (ascii_dec "/" c) as [<-|_]; [discriminate|reflexivity]. }
  assert (Hkept : List.fold_left (filepath.push rooted)
                    (strings.SplitSlash (clean_path rooted (e :: elems))) []
                  = List.rev (e :: elems)).
  { unfold clean_path. destruct rooted.
    - change ("/" ++ ?s) with (String "/" s).
      cbn [strings.SplitSlash Ascii.eqb Bool.eqb]. rewrite Hsplit.
      change (List.fold_left (filepath.push true) ("" :: e :: elems) [])
        with (List.fold_left (filepath.push true) (e :: elems) []).
      by rewrite (fold_push_plain _ _ _ Hall), app_nil_r.
    - change ("" ++ ?s) with s. rewrite Hsplit.
      by rewrite (fold_push_plain _ _ _ Hall), app_nil_r. }
  unfold filepath.Clean. rewrite Hnonempty, Hrooted. cbv zeta.
  rewrite Hkept, List.rev_involutive.
  unfold clean_path. destruct rooted; [reflexivity|].
  change ("" ++ ?s) with s. rewrite Hjoin. reflexivity.
Qed.

Lemma Join_app_last (elems : list string) (e : string) :
  elems <> [] ->
  strings.Join (elems ++ [e]) "/" = strings.Join elems "/" ++ String "/" e.
Proof.
  induction elems as [|x elems IH]; intros Hne; [contradiction|].
  destruct elems as [|y elems]; [reflexivity|].
  change ((x :: y :: elems) ++ [e])%list with (x :: y :: (elems ++ [e]))%list.
  rewrite !Join_cons, append_assoc, append_cons.
  change (y :: (elems ++ [e]))%list with ((y :: elems) ++ [e])%list.
  rewrite IH by discriminate. reflexivity.
Qed.

(** Joining the socket file name to a clean path appends it after a slash. *)
Lemma Join_clean_path (rooted : bool) (elems : list string) :
  elems <> [] ->
  List.forallb plain_element elems = true ->
  filepath.Join [clean_path rooted elems; ".s.PGSQL."]
  = clean_path rooted elems ++ "/.s.PGSQL.".
Proof.
  intros Hne Hall.
  assert (Hjoined : clean_path rooted elems ++ "/.s.PGSQL."
                    = clean_path rooted (elems ++ [".s.PGSQL."])).
  { unfold clean_path. rewrite (Join_app_last _ _ Hne). by rewrite append_assoc. }
  assert (Hnonempty : String.eqb (clean_path rooted elems) "" = false).
  { unfold clean_path. destruct rooted; [reflexivity|].
    destruct elems as [|e elems]; [contradiction|].
    cbn [List.forallb] in Hall. apply andb_prop in Hall as [He _].
    destruct (Join_plain_first e elems He) as (c & rest & Hjoin & _).
    change ("" ++ ?s) with s. rewrite Hjoin. reflexivity. }
  cbn [filepath.Join]. rewrite Hnonempty.
  change (strings.Join [clean_path rooted elems; ".s.PGSQL."] "/")
    with (clean_path rooted elems ++ "/.s.PGSQL.").
  rewrite Hjoined. apply Clean_clean_path.
  - destruct elems; discriminate.
  - rewrite List.forallb_app, Hall. reflexivity.
Qed.

(** The claim as it stands fails: a socket directory given with a trailing
    slash is cleaned by [filepath.Join], so the address is not the host
    followed by the marker and the port. *)
Lemma NetworkAddress_not_plain_concatenation :
  ~ (forall (env : Env) (cc : ConnConfig),
       os_Stat env (Host cc) = true ->
       strings.Contains (Host cc) "/.s.PGSQL." = false ->
       NetworkAddress env cc
       = ("unix", Host cc ++ "/.s.PGSQL." ++ strconv.FormatInt (Port cc))).
Proof.
  intros H.
  specialize (H (Sample.env []) Sample.cc eq_refl eq_refl).
  vm_compute in H. discriminate H.
Qed.

Example NetworkAddress_trailing_slash :
  NetworkAddress (Sample.env []) Sample.cc = ("unix", "/tmp/.s.PGSQL.5432").
Proof. vm_compute. reflexivity. Qed.

(** C3, amended: for an existing path without the marker the address is
    [filepath.Join] of the host and the marker's file name, followed by the
    decimal port, over "unix"; that is the host, a slash, the file name and
    the port when the host is a clean path.  For an existing path with the
    marker it is the host, over "unix"; for a path that does not exist it is
    host:port over "tcp". *)
Theorem NetworkAddress_cases (env : Env) (cc : ConnConfig) :
  (os_Stat env (Host cc) = true ->
   strings.Contains (Host cc) "/.s.PGSQL." = false ->
   NetworkAddress env cc
   = ("unix", filepath.Join [Host cc; ".s.PGSQL."] ++ strconv.FormatInt (Port cc))
   /\ (forall rooted elems,
         elems <> [] ->
         List.forallb plain_element elems = true ->
         Host cc = clean_path rooted elems ->
         NetworkAddress env cc
         = ("unix", Host cc ++ "/.s.PGSQL." ++ strconv.FormatInt (Port cc))))
  /\ (os_Stat env (Host cc) = true ->
      strings.Contains (Host cc) "/.s.PGSQL." = true ->
      NetworkAddress env cc = ("unix", Host cc))
  /\ (os_Stat env (Host cc) = false ->
      NetworkAddress env cc = ("tcp", Host cc ++ ":" ++ strconv.FormatInt (Port cc))).
Proof.
  unfold NetworkAddress. conjs.
  - intros -> ->. cbn [negb]. split; [reflexivity|].
    intros rooted elems Hne Hall ->.
    rewrite (Join_clean_path _ _ Hne Hall), append_assoc. reflexivity.
  - intros -> ->. reflexivity.
  - intros ->. reflexivity.
Qed.

Lemma NetworkAddress_cases_witness :
  NetworkAddress
    {| os_Stat := fun name => String.eqb name "/var/run/postgresql";
       user_Current := Ok "alice";
       net_Dialer_Dial := fun _ _ _ => Ok Sample.stream;
       pgproto3_NewFrontend := fun _ => Ok {| pgproto3.script := [] |} |}
    {| Host := "/var/run/postgresql"; Port := 5432; Database := ""; User := "";
       Password := ""; TLSConfig := None; Dial := None; RuntimeParams := ∅ |}
  = ("unix", "/var/run/postgresql/.s.PGSQL.5432").
Proof.
  destruct (NetworkAddress_cases
              {| os_Stat := fun name => String.eqb name "/var/run/postgresql";
                 user_Current := Ok "alice";
                 net_Dialer_Dial := fun _ _ _ => Ok Sample.stream;
                 pgproto3_NewFrontend := fun _ => Ok {| pgproto3.script := [] |} |}
              {| Host := "/var/run/postgresql"; Port := 5432; Database := ""; User := "";
                 Password := ""; TLSConfig := None; Dial := None; RuntimeParams := ∅ |})
    as (Hunix & _ & _).
  destruct (Hunix eq_refl eq_refl) as [_ Hclean].
  exact (Hclean true ["var"; "run"; "postgresql"] ltac:(discriminate) eq_refl eq_refl).
Defined.


(** * Further properties *)

(** ** assignDefaults *)

(** X1: running [assignDefaults] again on the configuration it left behind
    changes nothing. *)
Theorem assignDefaults_idempotent (env : Env) (cc cc' : ConnConfig) :
  assignDefaults env cc = (None, cc') ->
  assignDefaults env cc' = (None, cc').
Proof.
  unfold assignDefaults.
  destruct (String.eqb_spec (User cc) "") as [Hu|Hu].
  - destruct (user_Current env) as [username|err] eqn:Hcur; intros H; inversion H; subst.
    cbn [User Port Dial Host Database Password TLSConfig RuntimeParams].
    replace (if (if Port cc =? 0 then 5432 else Port cc) =? 0 then 5432
             else if Port cc =? 0 then 5432 else Port cc)
      with (if Port cc =? 0 then 5432 else Port cc)
      by (destruct (Z.eqb_spec (Port cc) 0) as [_|Hp];
          [reflexivity|apply Z.eqb_neq in Hp; by rewrite Hp]).
    destruct (String.eqb username ""); destruct (Dial cc); reflexivity.
  - intros H; inversion H; subst.
    cbn [User Port Dial Host Database Password TLSConfig RuntimeParams].
    apply String.eqb_neq in Hu. rewrite Hu.
    replace (if (if Port cc =? 0 then 5432 else Port cc) =? 0 then 5432
             else if Port cc =? 0 then 5432 else Port cc)
      with (if Port cc =? 0 then 5432 else Port cc)
      by (destruct (Z.eqb_spec (Port cc) 0) as [_|Hp];
          [reflexivity|apply Z.eqb_neq in Hp; by rewrite Hp]).
    destruct (Dial cc); reflexivity.
Qed.

Lemma assignDefaults_idempotent_witness :
  assignDefaults (Sample.env []) (snd (assignDefaults (Sample.env []) Sample.cc))
  = (None, snd (assignDefaults (Sample.env []) Sample.cc)).
Proof.
  apply (assignDefaults_idempotent (Sample.env []) Sample.cc). reflexivity.
Defined.

(** X2: a configuration that names its user, its port and its dial function
    is left as it is, whatever the system says about the current user. *)
Theorem assignDefaults_keeps_explicit (env : Env) (cc : ConnConfig) (dial : DialFunc) :
  User cc <> "" ->
  Port cc <> 0 ->
  Dial cc = Some dial ->
  assignDefaults env cc = (None, cc).
Proof.
  intros Hu Hp Hd. unfold assignDefaults.
  apply String.eqb_neq in Hu. apply Z.eqb_neq in Hp. rewrite Hu, Hp, Hd.
  destruct cc; simpl in *. by rewrite Hd.
Qed.

Lemma assignDefaults_keeps_explicit_witness :
  assignDefaults
    {| os_Stat := fun _ => false; user_Current := Err (foreign_error "user: unknown userid 4242");
       net_Dialer_Dial := fun _ _ _ => Err io_EOF;
       pgproto3_NewFrontend := fun _ => Err io_EOF |}
    {| Host := "db"; Port := 6432; Database := ""; User := "postgres"; Password := "";
       TLSConfig := None; Dial := Some (fun _ _ => Ok Sample.stream); RuntimeParams := ∅ |}
  = (None,
     {| Host := "db"; Port := 6432; Database := ""; User := "postgres"; Password := "";
        TLSConfig := None; Dial := Some (fun _ _ => Ok Sample.stream); RuntimeParams := ∅ |}).
Proof.
  apply (assignDefaults_keeps_explicit _ _ (fun _ _ => Ok Sample.stream));
    [discriminate|discriminate|reflexivity].
Defined.

(** X3: [assignDefaults] fails exactly when no user is configured and the
    lookup of the current user fails; it then returns that error and has
    touched nothing, so the port and the dial function are not defaulted.
    When it succeeds the port is not zero and a dial function is in place. *)
Theorem assignDefaults_failure (env : Env) (cc : ConnConfig) :
  (forall err,
     fst (assignDefaults env cc) = Some err
     <-> User cc = "" /\ user_Current env = Err err)
  /\ (forall err, fst (assignDefaults env cc) = Some err -> snd (assignDefaults env cc) = cc)
  /\ (fst (assignDefaults env cc) = None ->
      Port (snd (assignDefaults env cc)) <> 0
      /\ Dial (snd (assignDefaults env cc)) <> None).
Proof.
  unfold assignDefaults.
  destruct (String.eqb_spec (User cc) "") as [Hu|Hu].
  - destruct (user_Current env) as [username|err0]; cbn [fst snd Port Dial]; conjs.
    + intros err. split; [discriminate|]. intros [_ H]. discriminate.
    + discriminate.
    + intros _. split.
      * destruct (Z.eqb_spec (Port cc) 0); [discriminate|assumption].
      * destruct (Dial cc); discriminate.
    + intros err. split.
      * intros H; inversion H; subst. auto.
      * intros [_ H]. inversion H; subst. reflexivity.
    + reflexivity.
    + discriminate.
  - cbn [fst snd Port Dial]. conjs.
    + intros err. split; [discriminate|]. intros [H _]. contradiction.
    + discriminate.
    + intros _. split.
      * destruct (Z.eqb_spec (Port cc) 0); [discriminate|assumption].
      * destruct (Dial cc); discriminate.
Qed.

Lemma assignDefaults_failure_witness :
  fst (assignDefaults
         {| os_Stat := fun _ => false;
            user_Current := Err (foreign_error "user: unknown userid 4242");
            net_Dialer_Dial := fun _ _ _ => Ok Sample.stream;
            pgproto3_NewFrontend := fun _ => Err io_EOF |}
         Sample.cc)
  = Some (foreign_error "user: unknown userid 4242")
  /\ Port (snd (assignDefaults (Sample.env []) (with_Host zero_ConnConfig "db"))) <> 0.
Proof.
  split.
  - apply (proj1 (assignDefaults_failure _ Sample.cc)). split; reflexivity.
  - apply (proj2 (proj2 (assignDefaults_failure (Sample.env []) (with_Host zero_ConnConfig "db")))).
    reflexivity.
Defined.

(** X4: with a dial function of its own and a host that is no existing path,
    [Connect] dials "tcp" at host:port, the port being 5432 when none is
    configured, and an error of the dial comes back as it is, with no handle
    and no stream, before the loop is ever entered. *)
Theorem Connect_dials_defaulted_address
    (fuel : nat) (env : Env) (cc : ConnConfig) (dial : DialFunc) (err : error) :
  Dial cc = Some dial ->
  os_Stat env (Host cc) = false ->
  (User cc <> "" \/ exists username, user_Current env = Ok username) ->
  dial "tcp" (Host cc ++ ":" ++ strconv.FormatInt (if Port cc =? 0 then 5432 else Port cc))
  = Err err ->
  Connect fuel env cc = Done (None, Some err, None).
Proof.
  intros Hd Hstat Huser Hopen.
  unfold Connect, Connect_setup, assignDefaults. rewrite Hd.
  assert (Hrun : forall user,
             (let '(network, address) :=
                NetworkAddress env
                  {| Host := Host cc; Port := if Port cc =? 0 then 5432 else Port cc;
                     Database := Database cc; User := user; Password := Password cc;
                     TLSConfig := TLSConfig cc; Dial := Some dial;
                     RuntimeParams := RuntimeParams cc |} in
              dial network address)
             = Err err).
  { intros user. unfold NetworkAddress. cbn [Host Port]. rewrite Hstat. exact Hopen. }
  destruct (String.eqb_spec (User cc) "") as [Hu|Hu].
  - destruct Huser as [Hne|[username Hcur]]; [contradiction|]. rewrite Hcur.
    cbn [Dial]. specialize (Hrun username).
    destruct (NetworkAddress env _) as [network address]. rewrite Hrun. reflexivity.
  - cbn [Dial]. specialize (Hrun (User cc)).
    destruct (NetworkAddress env _) as [network address]. rewrite Hrun. reflexivity.
Qed.

Lemma Connect_dials_defaulted_address_witness :
  Connect 0 (Sample.env [])
    {| Host := "db.example.org"; Port := 0; Database := ""; User := ""; Password := "";
       TLSConfig := None;
       Dial := Some (fun network address =>
                       if String.eqb address "db.example.org:5432"
                       then Err (foreign_error "connection refused") else Ok Sample.stream);
       RuntimeParams := ∅ |}
  = Done (None, Some (foreign_error "connection refused"), None).
Proof.
  apply (Connect_dials_defaulted_address 0 (Sample.env []) _
           (fun network address =>
              if String.eqb address "db.example.org:5432"
              then Err (foreign_error "connection refused") else Ok Sample.stream)).
  - reflexivity.
  - reflexivity.
  - right. exists "alice". reflexivity.
  - reflexivity.
Defined.

(** ** PgError.Error *)

(** X5: the error the loop returns for an error-response frame reads
    severity, colon, message and the SQLSTATE code of the frame in
    brackets; the other fields do not show in the text. *)
Theorem Connect_error_text
    (n : nat) (state state' : PgConn) (msg : pgproto3.ErrorResponse) :
  ReceiveMessage state = Done (Ok (pgproto3.MsgErrorResponse msg), state') ->
  exists e,
    Connect_loop (Datatypes.S n) state = Done (None, Some e, NetConn state')
    /\ error_Error e
       = pgproto3.Severity msg ++ ": " ++ pgproto3.Message msg
         ++ " (SQLSTATE " ++ pgproto3.Code msg ++ ")".
Proof.
  intros Hrecv. eexists. split.
  - cbn [Connect_loop]. rewrite Hrecv. reflexivity.
  - reflexivity.
Qed.

Lemma Connect_error_text_witness :
  exists e,
    Connect_loop 1 (Sample.session [Ok (pgproto3.MsgErrorResponse Sample.failure)])
    = Done (None, Some e, Some Sample.stream)
    /\ error_Error e = "FATAL: password authentication failed (SQLSTATE 28P01)".
Proof.
  exact (Connect_error_text 0
           (Sample.session [Ok (pgproto3.MsgErrorResponse Sample.failure)])
           (set_Frontend (Sample.session [Ok (pgproto3.MsgErrorResponse Sample.failure)])
              (Some {| pgproto3.script := [] |}))
           Sample.failure eq_refl).
Defined.

(** ** hexMD5 *)

(** X6: whatever the input, [hexMD5] gives 32 characters, each of them one
    of 0-9 and a-f. *)
Theorem hexMD5_shape (s : string) :
  String.length (hexMD5 s) = 32%nat
  /\ Forall (fun c => In c (list_ascii_of_string "0123456789abcdef"))
            (list_ascii_of_string (hexMD5 s)).
Proof. split; [apply hexMD5_length|apply hexMD5_lowercase]. Qed.

(** ** startTLS *)

Lemma startTLS_cases (pgConn pgConn' : PgConn) (tlsConfig : tls.Config)
    (conn : net.Conn) (err : option error) :
  NetConn pgConn = Some conn ->
  startTLS pgConn tlsConfig = Done (err, pgConn') ->
  exists conn' o,
    pgConn' = set_NetConn pgConn (Some conn')
    /\ net.written conn'
       = (net.written conn ++ [(net.Bytes [0; 0; 0; 8; 4; 210; 22; 47], o)])%list
    /\ match err with
       | None =>
           o = None /\ net.tlsClient conn' = Some tlsConfig
           /\ exists rest, net.readScript conn = Ok "S"%char :: rest
                           /\ net.readScript conn' = rest
       | Some e =>
           net.tlsClient conn' = net.tlsClient conn
           /\ (o = Some e /\ net.readScript conn' = net.readScript conn
               \/ o = None
                  /\ (net.readScript conn = [] /\ e = io_EOF
                      \/ (exists rest, net.readScript conn = Err e :: rest)
                      \/ exists b rest,
                           net.readScript conn = Ok b :: rest
                           /\ b <> "S"%char /\ e = ErrTLSRefused))
       end.
Proof.
  intros Hconn. unfold startTLS, binary.Write, net.Write, net.ReadFull1.
  rewrite Hconn.
  destruct (net.writeScript conn) as [|[e|] script]; simpl;
    try (intros H; inversion H; subst; do 2 eexists; conjs; try reflexivity;
         left; split; reflexivity);
    (destruct (net.readScript conn) as [|[b|e] rest]; simpl;
     [ intros H; inversion H; subst; do 2 eexists; conjs; try reflexivity;
       right; split; [reflexivity|]; left; split; reflexivity
     | destruct (Ascii.eqb_spec b "S"%char) as [->|Hne]; simpl;
       intros H; inversion H; subst; do 2 eexists; conjs; try reflexivity;
       [ eexists; split; reflexivity
       | right; split; [reflexivity|]; right; right; exists b, rest; conjs; auto ]
     | intros H; inversion H; subst; do 2 eexists; conjs; try reflexivity;
       right; split; [reflexivity|]; right; left; eexists; reflexivity ]).
Qed.

(** X7: when [startTLS] fails, the stream is not wrapped and exactly the
    request was handed to it; if the transport refused the request, that
    error is returned and nothing was read; otherwise the error is the end
    of the stream, the read error, or [ErrTLSRefused] for a byte other than
    'S'. *)
Theorem startTLS_failure
    (pgConn pgConn' : PgConn) (tlsConfig : tls.Config) (conn : net.Conn) (err : error) :
  NetConn pgConn = Some conn ->
  startTLS pgConn tlsConfig = Done (Some err, pgConn') ->
  exists conn' o,
    pgConn' = set_NetConn pgConn (Some conn')
    /\ net.tlsClient conn' = net.tlsClient conn
    /\ net.written conn'
       = (net.written conn ++ [(net.Bytes [0; 0; 0; 8; 4; 210; 22; 47], o)])%list
    /\ (o = Some err /\ net.readScript conn' = net.readScript conn
        \/ o = None
           /\ (net.readScript conn = [] /\ err = io_EOF
               \/ (exists rest, net.readScript conn = Err err :: rest)
               \/ exists b rest,
                    net.readScript conn = Ok b :: rest
                    /\ b <> "S"%char /\ err = ErrTLSRefused)).
Proof.
  intros Hconn Hrun.
  destruct (startTLS_cases _ _ _ _ _ Hconn Hrun) as (conn' & o & Hpg & Hlog & Htls & Hwhy).
  exists conn', o. auto.
Qed.

Lemma startTLS_failure_witness :
  exists conn' o,
    set_NetConn (Sample.session [])
      (Some {| net.tlsClient := None;
               net.written := [(net.Bytes [0; 0; 0; 8; 4; 210; 22; 47],
                                Some (foreign_error "broken pipe"))];
               net.writeScript := []; net.readScript := [Ok "S"%char] |})
    = set_NetConn
        (set_NetConn (Sample.session [])
           (Some {| net.tlsClient := None; net.written := [];
                    net.writeScript := [Some (foreign_error "broken pipe")];
                    net.readScript := [Ok "S"%char] |}))
        (Some conn')
    /\ net.tlsClient conn' = None
    /\ net.written conn' = [(net.Bytes [0; 0; 0; 8; 4; 210; 22; 47], o)]
    /\ (o = Some (foreign_error "broken pipe") /\ net.readScript conn' = [Ok "S"%char]
        \/ o = None
           /\ ([Ok "S"%char] = [] /\ foreign_error "broken pipe" = io_EOF
               \/ (exists rest, [Ok "S"%char] = Err (foreign_error "broken pipe") :: rest)
               \/ exists b rest,
                    [Ok "S"%char] = Ok b :: rest
                    /\ b <> "S"%char /\ foreign_error "broken pipe" = ErrTLSRefused)).
Proof.
  exact (startTLS_failure
           (set_NetConn (Sample.session [])
              (Some {| net.tlsClient := None; net.written := [];
                       net.writeScript := [Some (foreign_error "broken pipe")];
                       net.readScript := [Ok "S"%char] |}))
           (set_NetConn (Sample.session [])
              (Some {| net.tlsClient := None;
                       net.written := [(net.Bytes [0; 0; 0; 8; 4; 210; 22; 47],
                                        Some (foreign_error "broken pipe"))];
                       net.writeScript := []; net.readScript := [Ok "S"%char] |}))
           Sample.tlsConfig
           {| net.tlsClient := None; net.written := [];
              net.writeScript := [Some (foreign_error "broken pipe")];
              net.readScript := [Ok "S"%char] |}
           (foreign_error "broken pipe") eq_refl eq_refl).
Defined.

(** ** What a successful handshake leaves in the handle and on the stream *)

Lemma rxAuthenticationX_exact
    (c c' : PgConn) (a : pgproto3.Authentication) (conn : net.Conn) :
  NetConn c = Some conn ->
  rxAuthenticationX c a = Done (None, c') ->
  exists conn',
    c' = set_NetConn c (Some conn')
    /\ net.written conn'
       = (net.written conn
          ++ List.map (fun p => (p, None))
               (password_reply (Config c) (Ok (pgproto3.MsgAuthentication a))))%list
    /\ net.tlsClient conn' = net.tlsClient conn.
Proof.
  intros Hconn.
  assert (Htx : forall password,
             txPasswordMessage c password = Done (None, c') ->
             exists conn',
               c' = set_NetConn c (Some conn')
               /\ net.written conn'
                  = (net.written conn
                     ++ [(net.Encoded (pgproto3.MsgPassword {| pgproto3.Password := password |}),
                          None)])%list
               /\ net.tlsClient conn' = net.tlsClient conn).
  { intros password Hrun.
    destruct (txPasswordMessage_writes_one c conn password Hconn)
      as (err2 & conn' & Hrun2 & Hlog & Htls & _).
    rewrite Hrun2 in Hrun. inversion Hrun; subst. eauto. }
  unfold rxAuthenticationX, password_reply.
  destruct (pgproto3.Type' a =? pgproto3.AuthTypeOk).
  { intros H; inversion H; subst. exists conn. rewrite app_nil_r.
    conjs; auto. symmetry. by apply set_NetConn_same. }
  destruct (pgproto3.Type' a =? pgproto3.AuthTypeCleartextPassword); [apply Htx|].
  destruct (pgproto3.Type' a =? pgproto3.AuthTypeMD5Password); [apply Htx|].
  discriminate.
Qed.

(** A handle comes out of the loop with the key data, the parameters and the
    password responses that the frames before ready-for-query call for. *)
Lemma Connect_loop_trace (fuel : nat) :
  forall (pgConn handle : PgConn) (conn : net.Conn) (frontend : pgproto3.Frontend)
         (statuses : gmap string string) (e : option error) (w : option net.Conn),
    NetConn pgConn = Some conn ->
    Frontend pgConn = Some frontend ->
    parameterStatuses pgConn = Some statuses ->
    Connect_loop fuel pgConn = Done (Some handle, e, w) ->
    exists pre m rest wire,
      pgproto3.script frontend = (pre ++ Ok (pgproto3.MsgReadyForQuery m) :: rest)%list
      /\ Forall continues pre
      /\ (PID handle, SecretKey handle) = keyData_after (PID pgConn, SecretKey pgConn) pre
      /\ parameterStatuses handle = Some (reported statuses pre)
      /\ NetConn handle = Some wire
      /\ w = Some wire
      /\ net.written wire
         = (net.written conn
            ++ List.map (fun p => (p, None)) (password_replies (Config pgConn) pre))%list
      /\ net.tlsClient wire = net.tlsClient conn
      /\ Frontend handle = Some {| pgproto3.script := rest |}
      /\ TxStatus handle = pgproto3.TxStatus m
      /\ Config handle = Config pgConn
      /\ e = None.
Proof.
  induction fuel as [|fuel IH];
    intros pgConn handle conn frontend statuses e w Hconn Hfe Hps; [discriminate|].
  cbn [Connect_loop]. rewrite (ReceiveMessage_unfold _ _ Hfe).
  destruct (pgproto3.script frontend) as [|[[a|b|q|ps|er|k]|err] script] eqn:Hscript;
    cbv zeta; cbn [parameterStatuses set_Frontend]; rewrite ?Hps;
    try (change (mbind ?k (Done ?x)) with (k x); cbv beta iota zeta);
    try discriminate.
  - (* authentication *)
    match goal with |- context [rxAuthenticationX ?c a] =>
      destruct (rxAuthenticationX c a) as [[err c']| |] eqn:Hrx; try discriminate;
      change (mbind ?k (Done ?x)) with (k x); cbv beta iota;
      destruct err as [err|]; [discriminate|];
      destruct (rxAuthenticationX_exact c c' a conn Hconn Hrx) as (conn' & -> & Hlog1 & Htls1)
    end.
    intros H.
    eapply IH with (conn := conn') (statuses := statuses) in H;
      [|first [exact Hps|reflexivity]..].
    destruct H as (pre & m & rest & wire & Hs & Hpre & Hkey & Hrep & Hnc & -> & Hlog & Htls
                   & Hfr & Htx & Hcfg & ->).
    exists (Ok (pgproto3.MsgAuthentication a) :: pre), m, rest, wire.
    cbn [pgproto3.script] in Hs. rewrite Hs. conjs; auto.
    + constructor; [|exact Hpre].
      match type of Hrx with rxAuthenticationX ?c _ = _ =>
        destruct (rxAuthenticationX_log c _ _ conn _ Hconn Hrx) as (? & ? & _ & _ & _ & _ & Hok)
      end.
      exact (proj2 (Hok eq_refl)).
    + rewrite Hlog, Hlog1, <- app_assoc. f_equal.
      unfold password_replies. cbn [List.flat_map]. by rewrite List.map_app.
    + congruence.
  - (* backend key data *)
    intros H.
    eapply IH with (conn := conn) (statuses := statuses) in H;
      [|first [exact Hconn|exact Hps|reflexivity]..].
    destruct H as (pre & m & rest & wire & Hs & Hpre & Hkey & Hrep & Hnc & -> & Hlog & Htls
                   & Hfr & Htx & Hcfg & ->).
    exists (Ok (pgproto3.MsgBackendKeyData b) :: pre), m, rest, wire.
    cbn [pgproto3.script] in Hs. rewrite Hs. conjs; auto.
    constructor; [exact I|exact Hpre].
  - (* ready for query *)
    intros H; inversion H; subst.
    exists [], q, script, conn. cbn. rewrite app_nil_r. conjs; auto.
  - (* parameter status *)
    intros H.
    eapply IH with (conn := conn)
                   (statuses := <[pgproto3.Name ps := pgproto3.Value ps]> statuses) in H;
      [|first [exact Hconn|reflexivity]..].
    destruct H as (pre & m & rest & wire & Hs & Hpre & Hkey & Hrep & Hnc & -> & Hlog & Htls
                   & Hfr & Htx & Hcfg & ->).
    exists (Ok (pgproto3.MsgParameterStatus ps) :: pre), m, rest, wire.
    cbn [pgproto3.script] in Hs. rewrite Hs. conjs; auto.
    constructor; [exact I|exact Hpre].
Qed.

Lemma reported_app (statuses : gmap string string)
    (p1 p2 : list (result pgproto3.BackendMessage)) :
  reported statuses (p1 ++ p2) = reported (reported statuses p1) p2.
Proof. unfold reported. apply List.fold_left_app. Qed.

Lemma reported_other (key : string) (pre : list (result pgproto3.BackendMessage)) :
  forall statuses : gmap string string,
    Forall (fun r => ~ reports key r) pre ->
    reported statuses pre !! key = statuses !! key.
Proof.
  induction pre as [|r pre IH]; intros statuses Hpre; [reflexivity|].
  inversion Hpre as [|r' pre' Hr Hrest]; subst.
  change (reported statuses (r :: pre))
    with (reported (match r with
                    | Ok (pgproto3.MsgParameterStatus m) =>
                        <[pgproto3.Name m := pgproto3.Value m]> statuses
                    | _ => statuses
                    end) pre).
  rewrite (IH _ Hrest).
  destruct r as [[a|b|q|ps|er|k]|err]; try reflexivity.
  simpl in Hr. by rewrite lookup_insert_ne.
Qed.

Lemma keyData_after_app (key : Z * Z) (p1 p2 : list (result pgproto3.BackendMessage)) :
  keyData_after key (p1 ++ p2) = keyData_after (keyData_after key p1) p2.
Proof. unfold keyData_after. apply List.fold_left_app. Qed.

Lemma keyData_after_none (pre : list (result pgproto3.BackendMessage)) :
  forall key : Z * Z,
    Forall (fun r => ~ is_keyData r) pre -> keyData_after key pre = key.
Proof.
  induction pre as [|r pre IH]; intros key Hpre; [reflexivity|].
  inversion Hpre as [|r' pre' Hr Hrest]; subst.
  destruct r as [[a|b|q|ps|er|k]|err]; try (exact (IH key Hrest)).
  destruct Hr. exact I.
Qed.

(** What [Connect_setup] hands to the stream it opened: the TLS request if
    TLS is configured, then the startup frame if the codec was built; the
    startup frame is written only on a stream that is wrapped when TLS is
    configured. *)
Lemma Connect_setup_trace (env : Env) (cc : ConnConfig) (r : result PgConn) (conn : net.Conn) :
  Connect_setup env cc = Done (r, Some conn) ->
  exists cc' dial conn0 tlspart startpart,
    assignDefaults env cc = (None, cc') /\ Dial cc' = Some dial
    /\ dial (fst (NetworkAddress env cc')) (snd (NetworkAddress env cc')) = Ok conn0
    /\ net.written conn = (net.written conn0 ++ tlspart ++ startpart)%list
    /\ match TLSConfig cc' with
       | None => tlspart = [] /\ net.tlsClient conn = net.tlsClient conn0
       | Some tlsConfig =>
           exists o,
             tlspart = [(net.Bytes [0; 0; 0; 8; 4; 210; 22; 47], o)]
             /\ (net.tlsClient conn = Some tlsConfig /\ o = None
                 /\ (exists more, net.readScript conn0 = Ok "S"%char :: more)
                 \/ net.tlsClient conn = net.tlsClient conn0 /\ startpart = []
                    /\ exists err, r = Err err)
       end
    /\ (startpart = [] /\ (exists err, r = Err err)
        \/ exists o,
             startpart = [(net.Encoded (pgproto3.MsgStartup (Connect_startupMsg cc')), o)]
             /\ match r with
                | Ok pgConn =>
                    o = None
                    /\ exists conn1 frontend,
                         pgproto3_NewFrontend env conn1 = Ok frontend
                         /\ pgConn = entering cc' conn frontend
                | Err err => o = Some err
                end).
Proof.
  unfold Connect_setup.
  destruct (assignDefaults_cases env cc) as [(err & Hdef & _)|(cc' & Hdef & _ & _ & Hdial & _)];
    rewrite Hdef; [discriminate|].
  rewrite Hdial.
  set (dial := match Dial cc with
               | Some d => d
               | None => net_Dialer_Dial env (5 * time_Minute)
               end) in *.
  destruct (NetworkAddress env cc') as [network address] eqn:Haddr.
  destruct (dial network address) as [conn0|err] eqn:Hopen; [|discriminate].
  intros H. exists cc', dial, conn0. rewrite Haddr. cbn [fst snd].
  set (pg0 := set_parameterStatuses
                (set_NetConn (set_Config new_PgConn cc') (Some conn0)) (Some ∅)) in *.
  assert (Hstart : forall conn1,
             match pgproto3_NewFrontend env conn1 with
             | Err err => Done (Err err, Some conn1)
             | Ok frontend =>
                 let pgConn := set_Frontend (set_NetConn pg0 (Some conn1)) (Some frontend) in
                 let startupMsg := Connect_startupMsg cc' in
                 let '(err, conn) :=
                   net.Write conn1 (net.Encoded (pgproto3.MsgStartup startupMsg)) in
                 let pgConn := set_NetConn pgConn (Some conn) in
                 match err with
                 | Some err => Done (Err err, NetConn pgConn)
                 | None => Done (Ok pgConn, NetConn pgConn)
                 end
             end = Done (r, Some conn) ->
             net.tlsClient conn = net.tlsClient conn1
             /\ exists startpart,
                  net.written conn = (net.written conn1 ++ startpart)%list
                  /\ (startpart = [] /\ (exists err, r = Err err)
                      \/ exists o,
                           startpart
                           = [(net.Encoded (pgproto3.MsgStartup (Connect_startupMsg cc')), o)]
                           /\ match r with
                              | Ok pgConn =>
                                  o = None
                                  /\ exists conn1 frontend,
                                       pgproto3_NewFrontend env conn1 = Ok frontend
                                       /\ pgConn = entering cc' conn frontend
                              | Err err => o = Some err
                              end)).
  { intros conn1.
    destruct (pgproto3_NewFrontend env conn1) as [frontend|err] eqn:Hfe.
    2:{ intros H'; inversion H'; subst. split; [reflexivity|].
        exists []. rewrite app_nil_r. split; [reflexivity|]. left. eauto. }
    cbv zeta. unfold net.Write.
    destruct (net.writeScript conn1) as [|[e|] script]; intros H'; inversion H'; subst;
      cbn [net.written net.tlsClient]; (split; [reflexivity|]);
      eexists; (split; [reflexivity|]); right; eexists; (split; [reflexivity|]);
      try reflexivity; (split; [reflexivity|]); exists conn1, frontend;
      (split; [exact Hfe|reflexivity]). }
  destruct (assignDefaults_cases env cc) as [(err & Hdef' & _)|(cc2 & Hdef' & Hrest)];
    rewrite Hdef in Hdef'; inversion Hdef'; subst cc2.
  destruct (TLSConfig cc') as [tlsConfig|] eqn:Hcfg.
  - destruct (startTLS pg0 tlsConfig) as [[err pg1]| |] eqn:Hrun; try discriminate H.
    destruct (startTLS_cases pg0 pg1 tlsConfig conn0 err eq_refl Hrun)
      as (conn1 & o & -> & Hlog1 & Hwhy).
    change (mbind ?k (Done ?x)) with (k x) in H. cbv beta iota in H.
    destruct err as [err|].
    + inversion H; subst. destruct Hwhy as [Hsame _].
      exists [(net.Bytes [0; 0; 0; 8; 4; 210; 22; 47], o)], [].
      rewrite app_nil_r. conjs; auto.
      * exists o. split; [reflexivity|]. right. conjs; eauto.
      * left. eauto.
    + destruct Hwhy as (-> & Hwrapped & more & Hread & _).
      cbn [NetConn set_NetConn] in H.
      destruct (Hstart conn1 H) as (Htls & startpart & Hlog & Hsp).
      exists [(net.Bytes [0; 0; 0; 8; 4; 210; 22; 47], None)], startpart.
      rewrite Hlog, Hlog1, <- app_assoc. conjs; auto.
      exists None. split; [reflexivity|]. left. conjs; eauto. congruence.
  - change (mbind ?k (Done ?x)) with (k x) in H. cbv beta iota in H.
    cbn [NetConn set_NetConn pg0 set_parameterStatuses] in H.
    destruct (Hstart conn0 H) as (Htls & startpart & Hlog & Hsp).
    exists [], startpart. conjs; auto.
Qed.

Lemma Connect_success_trace
    (fuel : nat) (env : Env) (cc : ConnConfig) (handle : PgConn)
    (e : option error) (w : option net.Conn) :
  Connect fuel env cc = Done (Some handle, e, w) ->
  exists cc' dial conn0 conn1 frontend tlspart pre m rest wire,
    assignDefaults env cc = (None, cc') /\ Dial cc' = Some dial
    /\ dial (fst (NetworkAddress env cc')) (snd (NetworkAddress env cc')) = Ok conn0
    /\ pgproto3_NewFrontend env conn1 = Ok frontend
    /\ pgproto3.script frontend = (pre ++ Ok (pgproto3.MsgReadyForQuery m) :: rest)%list
    /\ Forall continues pre
    /\ (PID handle, SecretKey handle) = keyData_after (0, 0) pre
    /\ parameterStatuses handle = Some (reported ∅ pre)
    /\ NetConn handle = Some wire
    /\ w = Some wire
    /\ net.written wire
       = (net.written conn0 ++ tlspart
          ++ [(net.Encoded (pgproto3.MsgStartup (Connect_startupMsg cc')), None)]
          ++ List.map (fun p => (p, None)) (password_replies cc' pre))%list
    /\ match TLSConfig cc' with
       | None => tlspart = [] /\ net.tlsClient wire = net.tlsClient conn0
       | Some tlsConfig =>
           tlspart = [(net.Bytes [0; 0; 0; 8; 4; 210; 22; 47], None)]
           /\ net.tlsClient wire = Some tlsConfig
           /\ exists more, net.readScript conn0 = Ok "S"%char :: more
       end
    /\ Frontend handle = Some {| pgproto3.script := rest |}
    /\ TxStatus handle = pgproto3.TxStatus m
    /\ Config handle = cc'
    /\ e = None.
Proof.
  unfold Connect.
  destruct (Connect_setup_returns env cc) as (r & wire0 & Hsetup). rewrite Hsetup.
  change (mbind ?k (Done ?x)) with (k x). cbv beta iota.
  destruct r as [pgConn|err]; [|discriminate].
  intros Hrun.
  assert (Hw0 : exists conn, wire0 = Some conn).
  { destruct (Connect_setup_log env cc _ _ Hsetup)
      as [(err & Herr & _)|(? & ? & ? & conn & ? & _ & _ & _ & -> & _)];
      [discriminate|eauto]. }
  destruct Hw0 as [conn ->].
  destruct (Connect_setup_trace env cc _ _ Hsetup)
    as (cc' & dial & conn0 & tlspart & startpart & Hdef & Hdial & Hopen & Hlog0 & Htls & Hsp).
  destruct Hsp as [[_ [err Herr]]|(o & -> & -> & conn1 & frontend & Hfe & ->)];
    [discriminate|].
  destruct (Connect_loop_trace fuel (entering cc' conn frontend) handle conn frontend ∅ e w
              eq_refl eq_refl eq_refl Hrun)
    as (pre & m & rest & wire & Hs & Hpre & Hkey & Hrep & Hnc & -> & Hlog & Htls2
        & Hfr & Htx & Hcfg & ->).
  exists cc', dial, conn0, conn1, frontend, tlspart, pre, m, rest, wire.
  conjs; auto.
  - rewrite Hlog, Hlog0, <- !app_assoc. reflexivity.
  - destruct (TLSConfig cc') as [tlsConfig|].
    + destruct Htls as (o & -> & [(Hwrapped & -> & Hread)|(_ & Hnil & _)]);
        [|discriminate].
      conjs; auto. congruence.
    + destruct Htls as [-> Hsame]. split; [reflexivity|congruence].
Qed.

(** X8: the handle [Connect] returns answers [ParameterStatus] with the
    value of the last parameter-status frame for that name among the frames
    received before ready-for-query, and with the empty string for a name
    that no such frame reported. *)
Theorem Connect_reported_parameters
    (fuel : nat) (env : Env) (cc : ConnConfig) (handle : PgConn)
    (e : option error) (w : option net.Conn) :
  Connect fuel env cc = Done (Some handle, e, w) ->
  exists conn1 frontend pre m rest,
    pgproto3_NewFrontend env conn1 = Ok frontend
    /\ pgproto3.script frontend = (pre ++ Ok (pgproto3.MsgReadyForQuery m) :: rest)%list
    /\ Forall continues pre
    /\ (forall p1 ps p2,
          pre = (p1 ++ Ok (pgproto3.MsgParameterStatus ps) :: p2)%list ->
          Forall (fun r => ~ reports (pgproto3.Name ps) r) p2 ->
          ParameterStatus handle (pgproto3.Name ps) = pgproto3.Value ps)
    /\ (forall key,
          Forall (fun r => ~ reports key r) pre ->
          ParameterStatus handle key = "").
Proof.
  intros Hrun.
  destruct (Connect_success_trace _ _ _ _ _ _ Hrun)
    as (cc' & dial & conn0 & conn1 & frontend & tlspart & pre & m & rest & wire & _ & _ & _
        & Hfe & Hs & Hpre & _ & Hrep & _).
  exists conn1, frontend, pre, m, rest. conjs; auto.
  - intros p1 ps p2 -> Hp2. unfold ParameterStatus. rewrite Hrep.
    rewrite reported_app.
    change (reported (reported ∅ p1) (Ok (pgproto3.MsgParameterStatus ps) :: p2))
      with (reported (<[pgproto3.Name ps := pgproto3.Value ps]> (reported ∅ p1)) p2).
    rewrite (reported_other _ _ _ Hp2), lookup_insert_eq. reflexivity.
  - intros key Hnone. unfold ParameterStatus. rewrite Hrep.
    rewrite (reported_other _ _ _ Hnone), lookup_empty. reflexivity.
Qed.

(** X9: the handle carries the process id and the secret key of the last
    backend-key-data frame received before ready-for-query, and zero for
    both when there was none. *)
Theorem Connect_key_data
    (fuel : nat) (env : Env) (cc : ConnConfig) (handle : PgConn)
    (e : option error) (w : option net.Conn) :
  Connect fuel env cc = Done (Some handle, e, w) ->
  exists conn1 frontend pre m rest,
    pgproto3_NewFrontend env conn1 = Ok frontend
    /\ pgproto3.script frontend = (pre ++ Ok (pgproto3.MsgReadyForQuery m) :: rest)%list
    /\ Forall continues pre
    /\ (forall p1 keyData p2,
          pre = (p1 ++ Ok (pgproto3.MsgBackendKeyData keyData) :: p2)%list ->
          Forall (fun r => ~ is_keyData r) p2 ->
          PID handle = pgproto3.ProcessID keyData
          /\ SecretKey handle = pgproto3.SecretKey keyData)
    /\ (Forall (fun r => ~ is_keyData r) pre -> PID handle = 0 /\ SecretKey handle = 0).
Proof.
  intros Hrun.
  destruct (Connect_success_trace _ _ _ _ _ _ Hrun)
    as (cc' & dial & conn0 & conn1 & frontend & tlspart & pre & m & rest & wire & _ & _ & _
        & Hfe & Hs & Hpre & Hkey & _).
  exists conn1, frontend, pre, m, rest. conjs; auto.
  - intros p1 keyData p2 -> Hp2.
    rewrite keyData_after_app in Hkey.
    change (keyData_after (keyData_after (0, 0) p1)
              (Ok (pgproto3.MsgBackendKeyData keyData) :: p2))
      with (keyData_after (pgproto3.ProcessID keyData, pgproto3.SecretKey keyData) p2)
      in Hkey.
    rewrite (keyData_after_none _ _ Hp2) in Hkey. inversion Hkey. auto.
  - intros Hnone. rewrite (keyData_after_none _ _ Hnone) in Hkey. inversion Hkey. auto.
Qed.

(** X10: when [Connect] returns a handle, what it handed to the stream is,
    in this order and all of it accepted: the TLS request if TLS is
    configured, the startup frame, and one password response for every
    cleartext or MD5 authentication request received before
    ready-for-query, each with the credential that request calls for. *)
Theorem Connect_transcript
    (fuel : nat) (env : Env) (cc : ConnConfig) (handle : PgConn)
    (e : option error) (w : option net.Conn) :
  Connect fuel env cc = Done (Some handle, e, w) ->
  exists cc' dial conn0 conn1 frontend pre m rest wire,
    assignDefaults env cc = (None, cc') /\ Dial cc' = Some dial
    /\ dial (fst (NetworkAddress env cc')) (snd (NetworkAddress env cc')) = Ok conn0
    /\ pgproto3_NewFrontend env conn1 = Ok frontend
    /\ pgproto3.script frontend = (pre ++ Ok (pgproto3.MsgReadyForQuery m) :: rest)%list
    /\ Forall continues pre
    /\ w = Some wire
    /\ net.written wire
       = (net.written conn0
          ++ List.map (fun p => (p, None))
               (match TLSConfig cc' with
                | Some _ => [net.Bytes [0; 0; 0; 8; 4; 210; 22; 47]]
                | None => []
                end
                ++ [net.Encoded (pgproto3.MsgStartup (Connect_startupMsg cc'))]
                ++ password_replies cc' pre))%list.
Proof.
  intros Hrun.
  destruct (Connect_success_trace _ _ _ _ _ _ Hrun)
    as (cc' & dial & conn0 & conn1 & frontend & tlspart & pre & m & rest & wire & Hdef & Hdial
        & Hopen & Hfe & Hs & Hpre & _ & _ & _ & -> & Hlog & Htls & _).
  exists cc', dial, conn0, conn1, frontend, pre, m, rest, wire. conjs; auto.
  rewrite Hlog. f_equal.
  destruct (TLSConfig cc') as [tlsConfig|].
  - destruct Htls as (-> & _). reflexivity.
  - destruct Htls as (-> & _). reflexivity.
Qed.

(** X11: when TLS is configured, the first thing [Connect] hands to the
    stream it opened is the TLS request, everything after it is an encoded
    frame, and no such frame is written unless the request was accepted,
    the server answered 'S' and the stream was wrapped with the configured
    policy. *)
Theorem Connect_tls_before_frames
    (fuel : nat) (env : Env) (cc : ConnConfig) (tlsConfig : tls.Config)
    (h : option PgConn) (e : option error) (wire : net.Conn) :
  TLSConfig cc = Some tlsConfig ->
  Connect fuel env cc = Done (h, e, Some wire) ->
  exists cc' dial conn0 o more,
    assignDefaults env cc = (None, cc') /\ Dial cc' = Some dial
    /\ dial (fst (NetworkAddress env cc')) (snd (NetworkAddress env cc')) = Ok conn0
    /\ net.written wire
       = (net.written conn0 ++ (net.Bytes [0; 0; 0; 8; 4; 210; 22; 47], o) :: more)%list
    /\ Forall is_encoded more
    /\ (more <> [] ->
        o = None /\ net.tlsClient wire = Some tlsConfig
        /\ exists rest, net.readScript conn0 = Ok "S"%char :: rest).
Proof.
  intros Hcfg. unfold Connect.
  destruct (Connect_setup_returns env cc) as (r & wire0 & Hsetup). rewrite Hsetup.
  change (mbind ?k (Done ?x)) with (k x). cbv beta iota.
  intros Hrun.
  assert (Hw0 : exists conn, wire0 = Some conn).
  { destruct (Connect_setup_log env cc _ _ Hsetup)
      as [(err & -> & -> & _)|(? & ? & ? & conn & ? & _ & _ & _ & -> & _)];
      [discriminate|eauto]. }
  destruct Hw0 as [conn ->].
  destruct (Connect_setup_trace env cc _ _ Hsetup)
    as (cc' & dial & conn0 & tlspart & startpart & Hdef & Hdial & Hopen & Hlog0 & Htls & Hsp).
  assert (Hsame : TLSConfig cc' = Some tlsConfig).
  { destruct (assignDefaults_cases env cc)
      as [(err & Hdef' & _)|(cc2 & Hdef' & _ & _ & _ & _ & _ & _ & Ht & _)];
      rewrite Hdef in Hdef'; inversion Hdef'; subst. congruence. }
  rewrite Hsame in Htls. destruct Htls as (o & -> & Htls).
  assert (Hstartpart : Forall is_encoded startpart).
  { destruct Hsp as [[-> _]|(o' & -> & _)]; repeat constructor. }
  exists cc', dial, conn0, o.
  destruct r as [pgConn|err].
  - destruct Hsp as [[_ [err Herr]]|(o' & -> & -> & conn1 & frontend & Hfe & ->)];
      [discriminate|].
    destruct Htls as [(Hwrapped & -> & Hread)|(_ & Hnil & _)]; [|discriminate].
    destruct (Connect_loop_log fuel (entering cc' conn frontend) conn frontend h e _
                eq_refl eq_refl Hrun)
      as (wire' & frames2 & Hw & Hlog & Hpw & Htls2 & _).
    inversion Hw; subst wire'.
    exists ((net.Encoded (pgproto3.MsgStartup (Connect_startupMsg cc')), None) :: frames2).
    conjs; auto.
    + rewrite Hlog, Hlog0, <- app_assoc. cbn [app]. reflexivity.
    + constructor; [exact I|].
      eapply Forall_impl; [exact Hpw|].
      intros [p o'] Hp. unfold is_password_frame, is_encoded in *. cbn [fst] in *.
      destruct p as [bs|[m|m]]; auto.
    + intros _. conjs; auto. congruence.
  - inversion Hrun; subst.
    exists startpart. conjs; auto.
    intros Hne.
    destruct Htls as [(Hwrapped & -> & Hread)|(_ & Hnil & _)]; [auto|contradiction].
Qed.

Lemma Connect_loop_silent (fuel : nat) :
  forall (pgConn : PgConn) (conn : net.Conn) (frontend : pgproto3.Frontend)
         (h : option PgConn) (e : option error) (w : option net.Conn),
    NetConn pgConn = Some conn ->
    Frontend pgConn = Some frontend ->
    Forall (fun r => ~ is_authentication r) (pgproto3.script frontend) ->
    Connect_loop fuel pgConn = Done (h, e, w) ->
    w = Some conn.
Proof.
  induction fuel as [|fuel IH]; intros pgConn conn frontend h e w Hconn Hfe Hquiet;
    [discriminate|].
  cbn [Connect_loop]. rewrite (ReceiveMessage_unfold _ _ Hfe).
  destruct (pgproto3.script frontend) as [|[[a|b|q|ps|er|k]|err] script] eqn:Hscript;
    cbv zeta; cbn [parameterStatuses set_Frontend];
    try (destruct (parameterStatuses pgConn) as [statuses|]; [|discriminate]);
    try (change (mbind ?k (Done ?x)) with (k x); cbv beta iota zeta);
    try (intros H; inversion H; subst; cbn; congruence).
  - inversion Hquiet as [|r l Hr Hl]; subst. destruct Hr. exact I.
  - inversion Hquiet as [|r l Hr Hl]; subst. intros H.
    eapply IH with (conn := conn) in H; [exact H|exact Hconn|reflexivity|exact Hl].
  - inversion Hquiet as [|r l Hr Hl]; subst. intros H.
    eapply IH with (conn := conn) in H; [exact H|exact Hconn|reflexivity|exact Hl].
Qed.

(** X12: if the server never asks for authentication, [Connect] writes no
    password-response frame, however the handshake ends. *)
Theorem Connect_no_password_unasked
    (fuel : nat) (env : Env) (cc : ConnConfig)
    (h : option PgConn) (e : option error) (wire : net.Conn) :
  (forall conn1 frontend,
     pgproto3_NewFrontend env conn1 = Ok frontend ->
     Forall (fun r => ~ is_authentication r) (pgproto3.script frontend)) ->
  Connect fuel env cc = Done (h, e, Some wire) ->
  exists cc' dial conn0 frames,
    assignDefaults env cc = (None, cc') /\ Dial cc' = Some dial
    /\ dial (fst (NetworkAddress env cc')) (snd (NetworkAddress env cc')) = Ok conn0
    /\ net.written wire = (net.written conn0 ++ frames)%list
    /\ Forall (fun w => ~ is_password_frame w) frames.
Proof.
  intros Hquiet. unfold Connect.
  destruct (Connect_setup_returns env cc) as (r & wire0 & Hsetup). rewrite Hsetup.
  change (mbind ?k (Done ?x)) with (k x). cbv beta iota.
  intros Hrun.
  assert (Hw0 : exists conn, wire0 = Some conn).
  { destruct (Connect_setup_log env cc _ _ Hsetup)
      as [(err & -> & -> & _)|(? & ? & ? & conn & ? & _ & _ & _ & -> & _)];
      [discriminate|eauto]. }
  destruct Hw0 as [conn ->].
  destruct (Connect_setup_trace env cc _ _ Hsetup)
    as (cc' & dial & conn0 & tlspart & startpart & Hdef & Hdial & Hopen & Hlog0 & Htls & Hsp).
  assert (Hparts : Forall (fun w => ~ is_password_frame w) (tlspart ++ startpart)).
  { apply Forall_app. split.
    - destruct (TLSConfig cc'); [destruct Htls as (o & -> & _)|destruct Htls as [-> _]];
        repeat constructor. intros [].
    - destruct Hsp as [[-> _]|(o & -> & _)]; repeat constructor. intros []. }
  assert (Hwire : wire = conn).
  { destruct r as [pgConn|err].
    - destruct Hsp as [[_ [err Herr]]|(o & -> & -> & conn1 & frontend & Hfe & ->)];
        [discriminate|].
      pose proof (Connect_loop_silent fuel (entering cc' conn frontend) conn frontend _ _ _
                    eq_refl eq_refl (Hquiet _ _ Hfe) Hrun) as Hw.
      by inversion Hw.
    - by inversion Hrun. }
  subst wire. exists cc', dial, conn0, (tlspart ++ startpart)%list. conjs; auto.
Qed.

(** X13: the configuration in the handle is the one given with the defaults
    filled in: the port is never zero, a dial function is in place, the user
    is the one given or else the current user of the system, and nothing
    else differs. *)
Theorem Connect_handle_config
    (fuel : nat) (env : Env) (cc : ConnConfig) (handle : PgConn)
    (e : option error) (w : option net.Conn) :
  Connect fuel env cc = Done (Some handle, e, w) ->
  Port (Config handle) = (if Port cc =? 0 then 5432 else Port cc)
  /\ Port (Config handle) <> 0
  /\ Dial (Config handle)
     = Some match Dial cc with
            | Some d => d
            | None => net_Dialer_Dial env (5 * time_Minute)
            end
  /\ (User cc <> "" -> User (Config handle) = User cc)
  /\ (User cc = "" -> user_Current env = Ok (User (Config handle)))
  /\ Host (Config handle) = Host cc
  /\ Database (Config handle) = Database cc
  /\ Password (Config handle) = Password cc
  /\ TLSConfig (Config handle) = TLSConfig cc
  /\ RuntimeParams (Config handle) = RuntimeParams cc.
Proof.
  intros Hrun.
  destruct (Connect_success_trace _ _ _ _ _ _ Hrun)
    as (cc' & dial & conn0 & conn1 & frontend & tlspart & pre & m & rest & wire & Hdef & _ & _
        & _ & _ & _ & _ & _ & _ & _ & _ & _ & _ & _ & Hcfg & _).
  rewrite Hcfg.
  destruct (assignDefaults_cases env cc)
    as [(err & Hdef' & _)|(cc2 & Hdef' & Huser & Hport & Hdial & Hhost & Hdb & Hpw & Htls & Hrp)];
    rewrite Hdef in Hdef'; inversion Hdef'; subst cc2.
  conjs; auto.
  - rewrite Hport. destruct (Z.eqb_spec (Port cc) 0); [discriminate|assumption].
  - intros Hne. destruct Huser as [[Hu _]|[Hu _]]; [exact Hu|contradiction].
  - intros Hempty. destruct Huser as [[_ Hu]|[_ Hu]]; [contradiction|exact Hu].
Qed.

(** X14: the frames after ready-for-query stay with the codec: the first
    [ReceiveMessage] on the handle [Connect] returned gives the frame (or
    the error) that followed ready-for-query, and the end of the stream if
    nothing did. *)
Theorem Connect_then_ReceiveMessage
    (fuel : nat) (env : Env) (cc : ConnConfig) (handle : PgConn)
    (e : option error) (w : option net.Conn) :
  Connect fuel env cc = Done (Some handle, e, w) ->
  exists conn1 frontend pre m rest,
    pgproto3_NewFrontend env conn1 = Ok frontend
    /\ pgproto3.script frontend = (pre ++ Ok (pgproto3.MsgReadyForQuery m) :: rest)%list
    /\ Forall continues pre
    /\ match rest with
       | [] => exists handle', ReceiveMessage handle = Done (Err io_EOF, handle')
       | r :: rest' =>
           exists handle',
             ReceiveMessage handle = Done (r, handle')
             /\ Frontend handle' = Some {| pgproto3.script := rest' |}
       end.
Proof.
  intros Hrun.
  destruct (Connect_success_trace _ _ _ _ _ _ Hrun)
    as (cc' & dial & conn0 & conn1 & frontend & tlspart & pre & m & rest & wire & _ & _ & _
        & Hfe & Hs & Hpre & _ & Hrep & _ & _ & _ & _ & Hfr & _).
  exists conn1, frontend, pre, m, rest. conjs; auto.
  rewrite (ReceiveMessage_unfold _ _ Hfr). cbn [pgproto3.script].
  destruct rest as [|[[a|b|q|ps|er|k]|err] rest']; cbv zeta;
    cbn [parameterStatuses set_Frontend]; rewrite ?Hrep; eauto.
Qed.

(** ** NetworkAddress: the directory or the socket file *)

Lemma prefix_append (m b : string) : String.prefix m (m ++ b) = true.
Proof.
  induction m as [|c m IH]; [by destruct b|].
  rewrite append_cons. cbn [String.prefix].
  destruct (ascii_dec c c) as [_|Hne]; [exact IH|contradiction].
Qed.

Lemma Contains_append (a m b : string) : strings.Contains (a ++ m ++ b) m = true.
Proof.
  induction a as [|c a IH].
  - change ("" ++ (m ++ b)) with (m ++ b).
    destruct (m ++ b) as [|x s] eqn:Hs; cbn [strings.Contains]; rewrite <- Hs, prefix_append;
      reflexivity.
  - rewrite append_cons. cbn [strings.Contains].
    destruct (String.prefix m (String c (a ++ m ++ b))); [reflexivity|exact IH].
Qed.

(** X15: for a clean socket directory, the address [NetworkAddress] gives is
    itself accepted as a host: if that socket file exists, a configuration
    that names it gets the same address again, over "unix". *)
Theorem NetworkAddress_socket_path
    (env : Env) (cc : ConnConfig) (rooted : bool) (elems : list string) :
  elems <> [] ->
  List.forallb plain_element elems = true ->
  Host cc = clean_path rooted elems ->
  os_Stat env (Host cc) = true ->
  os_Stat env (snd (NetworkAddress env cc)) = true ->
  NetworkAddress env (with_Host cc (snd (NetworkAddress env cc))) = NetworkAddress env cc
  /\ fst (NetworkAddress env cc) = "unix".
Proof.
  intros Hne Hall Hhost Hdir.
  unfold NetworkAddress at 1 3 4 5. rewrite Hdir.
  destruct (strings.Contains (Host cc) "/.s.PGSQL.") eqn:Hmarker; cbn [negb fst snd].
  - intros _. split; [|reflexivity].
    unfold NetworkAddress, with_Host. cbn [Host Port]. rewrite Hdir, Hmarker. reflexivity.
  - intros Hfile. split; [|reflexivity].
    unfold NetworkAddress, with_Host. cbn [Host Port]. rewrite Hfile.
    rewrite Hhost, (Join_clean_path _ _ Hne Hall), append_assoc.
    rewrite (Contains_append (clean_path rooted elems) "/.s.PGSQL."
               (strconv.FormatInt (Port cc))).
    reflexivity.
Qed.

Lemma NetworkAddress_socket_path_witness :
  NetworkAddress
    {| os_Stat := fun name => String.eqb name "/var/run/postgresql"
                              || String.eqb name "/var/run/postgresql/.s.PGSQL.5432";
       user_Current := Ok "alice";
       net_Dialer_Dial := fun _ _ _ => Ok Sample.stream;
       pgproto3_NewFrontend := fun _ => Err io_EOF |}
    (with_Host (with_Host Sample.cc "/var/run/postgresql")
       "/var/run/postgresql/.s.PGSQL.5432")
  = ("unix", "/var/run/postgresql/.s.PGSQL.5432").
Proof.
  destruct (NetworkAddress_socket_path
              {| os_Stat := fun name => String.eqb name "/var/run/postgresql"
                                        || String.eqb name "/var/run/postgresql/.s.PGSQL.5432";
                 user_Current := Ok "alice";
                 net_Dialer_Dial := fun _ _ _ => Ok Sample.stream;
                 pgproto3_NewFrontend := fun _ => Err io_EOF |}
              (with_Host Sample.cc "/var/run/postgresql")
              true ["var"; "run"; "postgresql"]
              ltac:(discriminate) eq_refl eq_refl eq_refl
              ltac:(vm_compute; reflexivity))
    as [Hsame _].
  vm_compute in Hsame. vm_compute. exact Hsame.
Defined.

(** ** Witnesses on the longer handshake *)

Lemma ready_split_unique (pre : list (result pgproto3.BackendMessage)) :
  forall pre' m m' rest rest',
    (pre ++ Ok (pgproto3.MsgReadyForQuery m) :: rest
     = pre' ++ Ok (pgproto3.MsgReadyForQuery m') :: rest')%list ->
    Forall continues pre -> Forall continues pre' ->
    pre = pre' /\ m = m' /\ rest = rest'.
Proof.
  induction pre as [|r pre IH]; intros [|r' pre'] m m' rest rest' Heq Hpre Hpre';
    cbn [app] in Heq.
  - inversion Heq. auto.
  - inversion Heq; subst. inversion Hpre' as [|x l Hx Hl]. destruct Hx.
  - inversion Heq; subst. inversion Hpre as [|x l Hx Hl]. destruct Hx.
  - inversion Heq; subst. inversion Hpre; inversion Hpre'; subst.
    destruct (IH pre' m m' rest rest') as (-> & -> & ->); auto.
Qed.

Lemma Scenario_runs :
  Connect 10 (Sample.env Scenario.frames) Sample.cc
  = Done (Scenario.outcome 10 (Sample.env Scenario.frames) Sample.cc).
Proof. vm_compute. reflexivity. Qed.

Lemma Scenario_before_ready : Forall continues Scenario.before_ready.
Proof.
  unfold Scenario.before_ready.
  constructor; [exact I|].
  constructor; [right; right; reflexivity|].
  constructor; [exact I|].
  constructor; [exact I|].
  constructor; [exact I|].
  constructor.
Qed.

Lemma Connect_reported_parameters_witness :
  ParameterStatus
    (Scenario.handle_of (Connect 10 (Sample.env Scenario.frames) Sample.cc)) "server_version"
  = "9.6"
  /\ ParameterStatus
       (Scenario.handle_of (Connect 10 (Sample.env Scenario.frames) Sample.cc)) "TimeZone"
     = "".
Proof.
  destruct (Connect_reported_parameters 10 (Sample.env Scenario.frames) Sample.cc _ _ _
              Scenario_runs)
    as (conn1 & frontend & pre & m & rest & Hfe & Hs & Hpre & Hlast & Hnone).
  inversion Hfe; subst frontend. cbn [pgproto3.script] in Hs.
  destruct (ready_split_unique Scenario.before_ready pre Sample.idle m
              [Ok (pgproto3.OtherMessage "A")] rest Hs Scenario_before_ready Hpre)
    as (<- & _ & _).
  split.
  - apply (Hlast [Ok (pgproto3.MsgParameterStatus
                        {| pgproto3.Name := "server_version"; pgproto3.Value := "9.5" |});
                  Ok (pgproto3.MsgAuthentication Scenario.md5_request)]
                 Sample.server_version
                 [Ok (pgproto3.MsgBackendKeyData
                        {| pgproto3.ProcessID := 1; pgproto3.SecretKey := 2 |});
                  Ok (pgproto3.MsgBackendKeyData Sample.keyData)]
                 eq_refl).
    repeat (constructor; [intros []|]). constructor.
  - apply Hnone. unfold Scenario.before_ready.
    repeat (constructor; [first [intros H; discriminate H|intros []]|]). constructor.
Defined.

Lemma Connect_key_data_witness :
  PID (Scenario.handle_of (Connect 10 (Sample.env Scenario.frames) Sample.cc)) = 4242
  /\ SecretKey (Scenario.handle_of (Connect 10 (Sample.env Scenario.frames) Sample.cc)) = 99.
Proof.
  destruct (Connect_key_data 10 (Sample.env Scenario.frames) Sample.cc _ _ _ Scenario_runs)
    as (conn1 & frontend & pre & m & rest & Hfe & Hs & Hpre & Hlast & _).
  inversion Hfe; subst frontend. cbn [pgproto3.script] in Hs.
  destruct (ready_split_unique Scenario.before_ready pre Sample.idle m
              [Ok (pgproto3.OtherMessage "A")] rest Hs Scenario_before_ready Hpre)
    as (<- & _ & _).
  apply (Hlast [Ok (pgproto3.MsgParameterStatus
                      {| pgproto3.Name := "server_version"; pgproto3.Value := "9.5" |});
                Ok (pgproto3.MsgAuthentication Scenario.md5_request);
                Ok (pgproto3.MsgParameterStatus Sample.server_version);
                Ok (pgproto3.MsgBackendKeyData
                      {| pgproto3.ProcessID := 1; pgproto3.SecretKey := 2 |})]
               Sample.keyData [] eq_refl).
  constructor.
Defined.

Lemma Connect_transcript_witness :
  exists cc' pre,
    List.map fst
      (net.written (Sample.wire_of (Connect 10 (Sample.env Scenario.frames) Sample.cc)))
    = (net.Encoded (pgproto3.MsgStartup (Connect_startupMsg cc'))
       :: password_replies cc' pre)
    /\ pre = Scenario.before_ready
    /\ assignDefaults (Sample.env Scenario.frames) Sample.cc = (None, cc').
Proof.
  destruct (Connect_transcript 10 (Sample.env Scenario.frames) Sample.cc _ _ _ Scenario_runs)
    as (cc' & dial & conn0 & conn1 & frontend & pre & m & rest & wire & Hdef & Hdial & Hopen
        & Hfe & Hs & Hpre & Hw & Hlog).
  inversion Hfe; subst frontend. cbn [pgproto3.script] in Hs.
  destruct (ready_split_unique Scenario.before_ready pre Sample.idle m
              [Ok (pgproto3.OtherMessage "A")] rest Hs Scenario_before_ready Hpre)
    as (<- & _ & _).
  assert (Hwire : Sample.wire_of (Connect 10 (Sample.env Scenario.frames) Sample.cc) = wire)
    by (injection Hw as Hw; exact Hw).
  clear Hw.
  assert (Hd : assignDefaults (Sample.env Scenario.frames) Sample.cc
               = (None, snd (assignDefaults (Sample.env Scenario.frames) Sample.cc)))
    by reflexivity.
  rewrite Hd in Hdef. inversion Hdef; subst cc'.
  cbn [Dial snd assignDefaults] in Hdial.
  assert (Hc0 : conn0 = Sample.stream).
  { inversion Hdial; subst dial. cbn in Hopen. by inversion Hopen. }
  subst conn0.
  exists (snd (assignDefaults (Sample.env Scenario.frames) Sample.cc)), Scenario.before_ready.
  conjs; [|reflexivity|reflexivity].
  rewrite Hwire, Hlog. cbn [net.written Sample.stream app TLSConfig snd assignDefaults].
  rewrite List.map_map. cbn [fst]. rewrite List.map_id. reflexivity.
Defined.

Lemma Scenario_tls_runs :
  Connect 5 (Sample.env Scenario.trusting) Scenario.tls_cc
  = Done (Scenario.outcome 5 (Sample.env Scenario.trusting) Scenario.tls_cc).
Proof. vm_compute. reflexivity. Qed.

Lemma Scenario_trusting_runs :
  Connect 5 (Sample.env Scenario.trusting) Sample.cc
  = Done (Scenario.outcome 5 (Sample.env Scenario.trusting) Sample.cc).
Proof. vm_compute. reflexivity. Qed.

Lemma Connect_tls_before_frames_witness :
  net.tlsClient (Sample.wire_of (Connect 5 (Sample.env Scenario.trusting) Scenario.tls_cc))
  = Some Sample.tlsConfig.
Proof.
  destruct (Connect_tls_before_frames 5 (Sample.env Scenario.trusting) Scenario.tls_cc
              Sample.tlsConfig _ _ _ eq_refl Scenario_tls_runs)
    as (cc' & dial & conn0 & o & more & Hdef & Hdial & Hopen & Hlog & Henc & Hwrapped).
  assert (Hlen : List.length
                   (net.written (Sample.wire_of
                                   (Connect 5 (Sample.env Scenario.trusting) Scenario.tls_cc)))
                 = 2%nat) by (vm_compute; reflexivity).
  assert (Hd : assignDefaults (Sample.env Scenario.trusting) Scenario.tls_cc
               = (None, snd (assignDefaults (Sample.env Scenario.trusting) Scenario.tls_cc)))
    by reflexivity.
  rewrite Hd in Hdef. inversion Hdef; subst cc'.
  assert (Hc0 : conn0 = Sample.stream).
  { cbn [Dial snd assignDefaults] in Hdial. inversion Hdial; subst dial.
    cbn in Hopen. by inversion Hopen. }
  subst conn0. rewrite Hlog in Hlen. cbn [net.written Sample.stream app List.length] in Hlen.
  apply Hwrapped. intros ->. discriminate Hlen.
Defined.

Lemma Connect_no_password_unasked_witness :
  exists frames,
    net.written (Sample.wire_of (Connect 5 (Sample.env Scenario.trusting) Sample.cc))
    = frames
    /\ Forall (fun w => ~ is_password_frame w) frames.
Proof.
  assert (Hquiet : forall conn1 frontend,
             pgproto3_NewFrontend (Sample.env Scenario.trusting) conn1 = Ok frontend ->
             Forall (fun r => ~ is_authentication r) (pgproto3.script frontend)).
  { intros conn1 frontend Hfe. inversion Hfe; subst frontend.
    cbn [pgproto3.script Scenario.trusting].
    repeat (constructor; [intros []|]). constructor. }
  destruct (Connect_no_password_unasked 5 (Sample.env Scenario.trusting) Sample.cc _ _ _
              Hquiet Scenario_trusting_runs)
    as (cc' & dial & conn0 & frames & Hdef & Hdial & Hopen & Hlog & Hnone).
  assert (Hd : assignDefaults (Sample.env Scenario.trusting) Sample.cc
               = (None, snd (assignDefaults (Sample.env Scenario.trusting) Sample.cc)))
    by reflexivity.
  rewrite Hd in Hdef. inversion Hdef; subst cc'.
  assert (Hc0 : conn0 = Sample.stream).
  { cbn [Dial snd assignDefaults] in Hdial. inversion Hdial; subst dial.
    cbn in Hopen. by inversion Hopen. }
  subst conn0. exists frames. split; [exact Hlog|exact Hnone].
Defined.

Lemma Connect_handle_config_witness :
  Port (Config (Scenario.handle_of (Connect 5 (Sample.env Scenario.trusting) Scenario.tls_cc)))
  = 5432
  /\ User (Config (Scenario.handle_of
                     (Connect 5 (Sample.env Scenario.trusting) Scenario.tls_cc)))
     = "postgres".
Proof.
  destruct (Connect_handle_config 5 (Sample.env Scenario.trusting) Scenario.tls_cc _ _ _
              Scenario_tls_runs)
    as (Hport & _ & _ & Huser & _).
  split; [exact Hport|].
  apply Huser. discriminate.
Defined.

Lemma Connect_then_ReceiveMessage_witness :
  exists handle',
    ReceiveMessage (Scenario.handle_of (Connect 10 (Sample.env Scenario.frames) Sample.cc))
    = Done (Ok (pgproto3.OtherMessage "A"), handle')
    /\ Frontend handle' = Some {| pgproto3.script := [] |}.
Proof.
  destruct (Connect_then_ReceiveMessage 10 (Sample.env Scenario.frames) Sample.cc _ _ _
              Scenario_runs)
    as (conn1 & frontend & pre & m & rest & Hfe & Hs & Hpre & Hnext).
  inversion Hfe; subst frontend. cbn [pgproto3.script] in Hs.
  destruct (ready_split_unique Scenario.before_ready pre Sample.idle m
              [Ok (pgproto3.OtherMessage "A")] rest Hs Scenario_before_ready Hpre)
    as (_ & _ & <-).
  exact Hnext.
Defined.
